(** * ddns-go: the configuration-save pipeline of [web/save.go]

    A shallow embedding of [web.Save] and [web.checkAndSave] together with
    the properties of the save pipeline: the bootstrap window, the
    credential checks, the positional merge of the submitted domain entries
    with the persisted ones, and the persistence / update trigger. *)

From Stdlib Require Import Bool Arith ZArith Lia List Ascii String.
From Stdlib Require Import DecimalString.
Import ListNotations.

Local Open Scope string_scope.
Local Open Scope list_scope.

(** ** Go strings

    A Go [string] is a sequence of bytes; [String.string] is the same thing
    (a list of 8-bit characters).  [strings.TrimSpace] removes the leading
    and the trailing white space, as Unicode defines it, from the UTF-8
    text. *)

Module strings.

(** The bytes of a string, and back. *)
Definition bytes (s : string) : list ascii := list_ascii_of_string s.
Definition ofBytes (l : list ascii) : string := string_of_list_ascii l.

Definition byteEq (a b : ascii) : bool := Ascii.eqb a b.

(** [HasPrefix]: the rest of [s] after the prefix [p], if [s] starts with
    [p]. *)
Fixpoint cutPrefix (p s : list ascii) : option (list ascii) :=
  match p with
  | [] => Some s
  | a :: p' =>
      match s with
      | [] => None
      | b :: s' => if byteEq a b then cutPrefix p' s' else None
      end
  end.

Definition enc (l : list N) : list ascii := map ascii_of_N l.

(** The UTF-8 encodings of the code points for which [unicode.IsSpace]
    holds: U+0009..U+000D, U+0020, U+0085, U+00A0, U+1680, U+2000..U+200A,
    U+2028, U+2029, U+202F, U+205F, U+3000.  Any other byte sequence,
    malformed ones included, decodes to a rune that is not a space. *)
Definition spaceRunes : list (list ascii) :=
  map enc
    [ [9]; [10]; [11]; [12]; [13]; [32];
      [194; 133]; [194; 160];
      [225; 154; 128];
      [226; 128; 128]; [226; 128; 129]; [226; 128; 130]; [226; 128; 131];
      [226; 128; 132]; [226; 128; 133]; [226; 128; 134]; [226; 128; 135];
      [226; 128; 136]; [226; 128; 137]; [226; 128; 138];
      [226; 128; 168]; [226; 128; 169]; [226; 128; 175];
      [226; 129; 159];
      [227; 128; 128] ]%N.

(** The rest of [s] after one leading rune out of [runes]. *)
Fixpoint cutRune (runes : list (list ascii)) (s : list ascii)
  : option (list ascii) :=
  match runes with
  | [] => None
  | r :: runes' =>
      match cutPrefix r s with
      | Some rest => Some rest
      | None => cutRune runes' s
      end
  end.

(** [TrimLeftFunc]: drop leading runes of [runes] while there is one; the
    counter bounds the number of runes by the number of bytes. *)
Fixpoint trimLeftN (runes : list (list ascii)) (n : nat) (s : list ascii)
  : list ascii :=
  match n with
  | O => s
  | S n' =>
      match cutRune runes s with
      | Some rest => trimLeftN runes n' rest
      | None => s
      end
  end.

Definition trimLeft (runes : list (list ascii)) (s : list ascii) : list ascii :=
  trimLeftN runes (List.length s) s.

(** [TrimRightFunc] reads the runes from the end: the same on the reversed
    text with the reversed encodings. *)
Definition trimRight (runes : list (list ascii)) (s : list ascii) : list ascii :=
  rev (trimLeft (map (@rev ascii) runes) (rev s)).

Definition trimBytes (s : list ascii) : list ascii :=
  trimRight spaceRunes (trimLeft spaceRunes s).

Definition TrimSpace (s : string) : string := ofBytes (trimBytes (bytes s)).

(** [strings.Join]. *)
Fixpoint Join (l : list string) (sep : string) : string :=
  match l with
  | [] => ""
  | [a] => a
  | a :: l' => (a ++ sep ++ Join l' sep)%string
  end.

End strings.

(** 64-bit signed integers ([int64], the type of [time.Time.Unix]):
    arithmetic is on [Z], wrapped into the range. *)
Definition wrap64 (z : Z) : Z :=
  ((z + 9223372036854775808) mod 18446744073709551616 - 9223372036854775808)%Z.

(** ** Package [config]: the persisted configuration

    The declarations of [config.Config] and [config.DnsConfig] are in
    another file of the repository; the records below have the fields that
    [web/save.go] reads and writes, which are those of §3 of the spec. *)

Module config.

(** Modelled from the spec: [DnsConfig.Ipv4], the IPv4 sub-config of §3
    (enabled flag, detection method, source URL, interface, command,
    domain list). *)
Module Ipv4.
Record t : Type := mk {
  Enable : bool;
  GetType : string;
  URL : string;
  NetInterface : string;
  Cmd : string;
  Domains : list string
}.
End Ipv4.

(** Modelled from the spec: [DnsConfig.Ipv6], the IPv6 sub-config of §3,
    with the interface-identifier regular expression. *)
Module Ipv6.
Record t : Type := mk {
  Enable : bool;
  GetType : string;
  URL : string;
  NetInterface : string;
  Cmd : string;
  Ipv6Reg : string;
  Domains : list string
}.
End Ipv6.

(** Modelled from the spec: [DnsConfig.DNS], the provider identity of §3
    ([Name], [ID], [Secret]). *)
Module DNS.
Record t : Type := mk {
  Name : string;
  ID : string;
  Secret : string
}.
End DNS.

(** Modelled from the spec: [DnsConfig] of §3; the TTL is a text. *)
Record DnsConfig : Type := mkDnsConfig {
  Ipv4 : Ipv4.t;
  Ipv6 : Ipv6.t;
  DNS : DNS.t;
  TTL : string
}.

(** Modelled from the spec: [Config], the Configuration of §3, with the
    language [checkAndSave] stores in it. *)
Record Config : Type := mkConfig {
  Username : string;
  Password : string;
  NotAllowWanAccess : bool;
  WebhookURL : string;
  WebhookRequestBody : string;
  WebhookHeaders : string;
  Lang : string;
  DnsConf : list DnsConfig
}.

End config.

(** ** Package [main]: the command line and the service

    The process acts on its surroundings only: the embedding keeps the
    sequence of the actions, and takes what the surroundings answer from an
    environment. *)

Module main.

(** [strconv.Itoa] and the verb [%d]: the decimal digits. *)
Definition Itoa (z : Z) : string := NilZero.string_of_int (Z.to_int z).

(** [time.Duration], in nanoseconds. *)
Definition Millisecond : Z := 1000000.
Definition Second : Z := 1000000000.
Definition Minute : Z := 60 * Second.

(** [service.Status] of [github.com/kardianos/service]. *)
Inductive Status : Type :=
| StatusUnknown
| StatusRunning
| StatusStopped.

Definition Status_eqb (a b : Status) : bool :=
  match a, b with
  | StatusUnknown, StatusUnknown
  | StatusRunning, StatusRunning
  | StatusStopped, StatusStopped => true
  | _, _ => false
  end.

(** What the code reads of a [*net.TCPAddr]. *)
Record TCPAddr : Type := mkTCPAddr {
  IsGlobalUnicast : bool;              (* [addr.IP.IsGlobalUnicast()] *)
  Port : Z;                            (* [addr.Port] *)
  addrString : string                  (* [addr.String()] *)
}.

(** The handlers of package [web], and what a route is bound to. *)
Inductive WebHandler : Type :=
| Writing | Save | Logs | ClearLog
| Ipv4NetInterfaces | Ipv6NetInterfaces | WebhookTest.

Inductive Handler : Type :=
| FileServer (fs : string)
| BasicAuth (h : WebHandler).

(** A value of [service.KeyValue]. *)
Inductive OptionValue : Type :=
| OptBool (b : bool)
| OptString (s : string).

(** [service.Config], as far as [getService] fills it. *)
Record ServiceConfig : Type := mkServiceConfig {
  Name : string;
  DisplayName : string;
  Description : string;
  Arguments : list string;
  Option : list (string * OptionValue)
}.

(** The actions of the process. *)
Inductive Event : Type :=
| LogFatalf (format : string) (args : list string)
| LogFatalln (args : list string)
| LogPrintln (args : list string)
| LogPrintf (format : string) (args : list string)
| FmtPrintln (args : list string)
| Setenv (key value : string)
| Handle (pattern : string) (handler : Handler)
| SvcInstall
| SvcStart
| SvcStop
| SvcUninstall
| SvcRun
| GoProgramRun
| GoRunTimer (firstDelay interval : Z)
| GoOpenExplorer (url : string)
| ListenAndServe (addr : string)
| Sleep (d : Z)
| Exit (code : Z).

(** The flags after [flag.Parse] and the answers of the surroundings; an
    error is [Some] of its text, [nil] is [None]. *)
Record Env : Type := mkEnv {
  listen : string;                     (* [-l] *)
  every : Z;                           (* [-f] *)
  serviceType : string;                (* [-s] *)
  configFilePath : string;             (* [-c] *)
  ResolveTCPAddr : string -> TCPAddr + string;
  Abs : string -> string;              (* [filepath.Abs] *)
  ConfigFilePathENV : string;          (* [util.ConfigFilePathENV] *)
  IsRunInDocker : bool;                (* [util.IsRunInDocker()] *)
  GetConfigCacheErr : bool;            (* [config.GetConfigCache] fails *)
  ChosenSystem : string;               (* [service.ChosenSystem().String()] *)
  Platform : string;                   (* [s.Platform()] *)
  sysvScript : string;                 (* the constant [sysvScript] *)
  serviceNew : option string;          (* error of [service.New] *)
  svcStatus : Status * option string;  (* [s.Status()] *)
  svcInstall : option string;          (* error of [s.Install()] *)
  svcUninstall : option string;        (* error of [s.Uninstall()] *)
  serve : option string                (* error of [http.ListenAndServe] *)
}.

(** A run of the process: the actions so far and the value, or [None]
    once the process has exited. *)
Definition Proc (A : Type) : Type := (list Event * option A)%type.

Definition ret {A : Type} (a : A) : Proc A := ([], Some a).

Definition bind {A B : Type} (m : Proc A) (f : A -> Proc B) : Proc B :=
  match m with
  | (t, Some a) => let (t', r) := f a in (t ++ t', r)
  | (t, None) => (t, None)
  end.

Definition emit (e : Event) : Proc unit := ([e], Some tt).

(** [log.Fatal...] and [os.Exit]: the action, and the process is over. *)
Definition exit {A : Type} (e : Event) : Proc A := ([e], None).

Notation "x <- m ;; k" := (bind m (fun x => k))
  (at level 61, m at next level, right associativity).
Notation "m ;;; k" := (bind m (fun _ : unit => k))
  (at level 61, right associativity).

(** Lines 123-146. *)
Definition getService (env : Env) : Proc ServiceConfig :=
  let options :=
    if ChosenSystem env =? "unix-systemv"
    then [("SysvScript", OptString (sysvScript env));
          ("UserService", OptBool false)]
    else [("UserService", OptBool true)] in
  let svcConfig :=
    mkServiceConfig "ddns-go" "ddns-go"
      "简单好用的DDNS。自动更新域名解析到公网IP(支持阿里云、腾讯云dnspod、Cloudflare、华为云)"
      ["-l"; listen env; "-f"; Itoa (every env); "-c"; configFilePath env]
      options in
  match serviceNew env with
  | Some err => exit (LogFatalln [err])
  | None => ret svcConfig
  end.

(** Lines 149-157. *)
Definition uninstallService (env : Env) : Proc unit :=
  s <- getService env ;;
  emit SvcStop ;;;
  emit SvcUninstall ;;;
  match svcUninstall env with
  | None => emit (LogPrintln ["ddns-go 服务卸载成功!"])
  | Some err =>
      emit (LogPrintf ("ddns-go 服务卸载失败, ERR: %s" ++ String (ascii_of_N 10) "")
              [err])
  end.

(** Lines 160-181. *)
Definition installService (env : Env) : Proc unit :=
  s <- getService env ;;
  let (status, err) := svcStatus env in
  let rest :=
    if negb (Status_eqb status StatusUnknown)
    then emit (LogPrintln ["ddns-go 服务已安装, 无需在次安装"])
    else ret tt in
  match err with
  | Some _ =>
      if Status_eqb status StatusUnknown then
        emit SvcInstall ;;;
        match svcInstall env with
        | None =>
            emit SvcStart ;;;
            emit (LogPrintln ["安装 ddns-go 服务成功! 请打开浏览器并进行配置。"]) ;;;
            if ChosenSystem env =? "unix-systemv"
            then emit (LogPrintln ["如不能访问，请重启"])
            else ret tt
        | Some err =>
            emit (LogPrintf
                    ("安装 ddns-go 服务失败, ERR: %s" ++ String (ascii_of_N 10) "")
                    [err]) ;;;
            rest
        end
      else rest
  | None => rest
  end.

(** Lines 184-204. *)
Definition autoOpenExplorer (env : Env) : Proc unit :=
  if GetConfigCacheErr env then
    if IsRunInDocker env then
      emit (FmtPrintln
              ["Docker中运行, 请在浏览器中打开 http://docker主机IP:端口 进行配置"])
    else
      match ResolveTCPAddr env (listen env) with
      | inr _ => ret tt
      | inl addr =>
          let url := ("http://127.0.0.1:" ++ Itoa (Port addr))%string in
          let url :=
            if IsGlobalUnicast addr then ("http://" ++ addrString addr)%string
            else url in
          emit (GoOpenExplorer url)
      end
  else ret tt.

(** Lines 78-105. *)
Definition run (env : Env) (firstDelay : Z) : Proc unit :=
  emit (Handle "/static/" (FileServer "staticEmbededFiles")) ;;;
  emit (Handle "/favicon.ico" (FileServer "faviconEmbededFile")) ;;;
  emit (Handle "/" (BasicAuth Writing)) ;;;
  emit (Handle "/save" (BasicAuth Save)) ;;;
  emit (Handle "/logs" (BasicAuth Logs)) ;;;
  emit (Handle "/clearLog" (BasicAuth ClearLog)) ;;;
  emit (Handle "/ipv4NetInterface" (BasicAuth Ipv4NetInterfaces)) ;;;
  emit (Handle "/ipv6NetInterface" (BasicAuth Ipv6NetInterfaces)) ;;;
  emit (Handle "/webhookTest" (BasicAuth WebhookTest)) ;;;
  emit (LogPrintln ["监听"; listen env; "..."]) ;;;
  autoOpenExplorer env ;;;
  emit (GoRunTimer firstDelay (wrap64 (every env * Second))) ;;;
  emit (ListenAndServe (listen env)) ;;;
  match serve env with
  | Some err =>
      emit (LogPrintln ["启动端口发生异常, 请检查端口是否被占用"; err]) ;;;
      emit (Sleep Minute) ;;;
      exit (Exit 1)
  | None => ret tt
  end.

(** Lines 109-121: the methods of [program]. *)
Definition program_run (env : Env) : Proc unit := run env (10 * Second).

Definition program_Start (env : Env) : Proc (option string) :=
  emit GoProgramRun ;;; ret None.

Definition program_Stop (env : Env) : Proc (option string) := ret None.

(** [s.Run()] on the service that [getService] made of [program]: the
    service library calls [Start], whose goroutine is [program.run], that
    is [run] with a first delay of 10 s (lines 109-117); the actions of the
    goroutine are put where it is started. *)
Definition serviceRun (env : Env) : Proc unit :=
  emit SvcRun ;;;
  err <- program_Start env ;;
  program_run env.

(** Lines 40-76. *)
Definition main (env : Env) : Proc unit :=
  match ResolveTCPAddr env (listen env) with
  | inr err => exit (LogFatalf "解析监听地址异常，%s" [err])
  | inl _ =>
      (if negb (configFilePath env =? "")
       then emit (Setenv (ConfigFilePathENV env) (Abs env (configFilePath env)))
       else ret tt) ;;;
      if serviceType env =? "install" then installService env
      else if serviceType env =? "uninstall" then uninstallService env
      else if IsRunInDocker env then run env (100 * Millisecond)
      else
        s <- getService env ;;
        let (status, _) := svcStatus env in
        if negb (Status_eqb status StatusUnknown) then serviceRun env
        else
          emit (LogPrintln
                  [if Platform env =? "windows-service"
                   then "可使用 .\ddns-go.exe -s install 安装服务运行"
                   else "可使用 ./ddns-go -s install 安装服务运行"]) ;;;
          run env (100 * Millisecond)
  end.

(** A sample environment: the default flags on a host where the listen
    address resolves, no configuration is stored yet and the service
    manager answers [status]. *)
Definition sampleResolve (addr : string) : TCPAddr + string :=
  if addr =? ":9876" then inl (mkTCPAddr false 9876 ":9876")
  else inr "missing port in address".

Definition sampleEnv (serviceType : string) (docker : bool)
    (status : Status * option string) : Env :=
  mkEnv ":9876" 300 serviceType "/root/.ddns_go_config.yaml"
    sampleResolve (fun path => path) "DDNS_CONFIG_FILE_PATH" docker true
    "linux-systemd" "linux-systemd" "#!/bin/sh" None status None None
    (Some "address already in use").

End main.

(** ** Package [web]: the save handler *)

Module web.

(** Modelled from the spec: [dnsConf4JS], one domain entry as the form
    submits it, is declared in another file of the repository; the fields
    are those [checkAndSave] reads, which are the [DomainDTO] of §6, the
    domain lists being newline-delimited text. *)
Record dnsConf4JS : Type := mkDnsConf4JS {
  DnsName : string;
  DnsID : string;
  DnsSecret : string;
  TTL : string;
  Ipv4Enable : bool;
  Ipv4GetType : string;
  Ipv4Url : string;
  Ipv4NetInterface : string;
  Ipv4Cmd : string;
  Ipv4Domains : string;
  Ipv6Enable : bool;
  Ipv6GetType : string;
  Ipv6Url : string;
  Ipv6NetInterface : string;
  Ipv6Cmd : string;
  Ipv6Reg : string;
  Ipv6Domains : string
}.

(** [dnsConf4JS{}], the zero value. *)
Definition empty : dnsConf4JS :=
  mkDnsConf4JS "" "" "" "" false "" "" "" "" "" false "" "" "" "" "" "".

(** Go's [==] on the struct: field by field. *)
Definition dnsConf4JS_eqb (a b : dnsConf4JS) : bool :=
  (DnsName a =? DnsName b) && (DnsID a =? DnsID b)
  && (DnsSecret a =? DnsSecret b) && (TTL a =? TTL b)
  && Bool.eqb (Ipv4Enable a) (Ipv4Enable b)
  && (Ipv4GetType a =? Ipv4GetType b) && (Ipv4Url a =? Ipv4Url b)
  && (Ipv4NetInterface a =? Ipv4NetInterface b) && (Ipv4Cmd a =? Ipv4Cmd b)
  && (Ipv4Domains a =? Ipv4Domains b)
  && Bool.eqb (Ipv6Enable a) (Ipv6Enable b)
  && (Ipv6GetType a =? Ipv6GetType b) && (Ipv6Url a =? Ipv6Url b)
  && (Ipv6NetInterface a =? Ipv6NetInterface b) && (Ipv6Cmd a =? Ipv6Cmd b)
  && (Ipv6Reg a =? Ipv6Reg b) && (Ipv6Domains a =? Ipv6Domains b).

(** The anonymous struct [data] the request body is decoded into. *)
Record data : Type := mkData {
  Username : string;
  Password : string;
  NotAllowWanAccess : bool;
  WebhookURL : string;
  WebhookRequestBody : string;
  WebhookHeaders : string;
  DnsConf : list dnsConf4JS
}.

(** The request, as far as the handler reads it: what
    [json.NewDecoder(request.Body).Decode] yields ([None] when it returns an
    error) and the [Accept-Language] header. *)
Record Request : Type := mkRequest {
  Body : option data;
  AcceptLanguage : string
}.

(** A line written by [util.Log]: the message catalogue's language, the
    format and its arguments. *)
Record LogLine : Type := mkLogLine {
  logLang : string;
  logFormat : string;
  logArgs : list string
}.

(** Modelled from the spec: the process state around the handler.
    [config.GetConfigCached] is not part of [web/save.go]; by §3 the
    Configuration is process-wide and its absence signals the first run.
    [cached] is that configuration and [cachedErr] says whether
    [GetConfigCached] reports an error.  The handler works on [conf], the
    value [GetConfigCached] hands out: a request that is turned down leaves
    the Configuration as it was (§7, §8), and the save puts [conf] in its
    place, also when the durable write fails (§7). *)
Record World : Type := mkWorld {
  cached : config.Config;
  cachedErr : bool;
  startTime : Z;                       (* [startTime], Unix seconds *)
  clock : Z;                           (* [time.Now().Unix()] *)
  lang : string;                       (* language of [util.LogStr] *)
  logged : list LogLine;               (* lines written by [util.Log] *)
  ForceCompareGlobal : bool;           (* [util.ForceCompareGlobal] *)
  runOnceStarted : nat;                (* [go dns.RunOnce()] started *)
  written : list config.Config         (* calls of [conf.SaveConfig()] *)
}.

(** Why a request was turned down (spec §7). *)
Inductive Rejection : Type :=
| RequestParseError
| BootstrapWindowError
| WeakPasswordError
| MissingCredentialsError.

(** How [checkAndSave] returns: one of the early [return]s with its
    message, or past [conf.SaveConfig()] with the error it gave. *)
Inductive Outcome : Type :=
| Rejected (why : Rejection) (msg : string)
| Written (err : option string).

(** The string [checkAndSave] returns. *)
Definition resultOf (o : Outcome) : string :=
  match o with
  | Rejected _ msg => msg
  | Written (Some e) => e
  | Written None => "ok"
  end.

(** Field assignments on the configuration. *)
Definition setLang (conf : config.Config) (l : string) : config.Config :=
  config.mkConfig (config.Username conf) (config.Password conf)
    (config.NotAllowWanAccess conf) (config.WebhookURL conf)
    (config.WebhookRequestBody conf) (config.WebhookHeaders conf)
    l (config.DnsConf conf).

Definition setPassword (conf : config.Config) (p : string) : config.Config :=
  config.mkConfig (config.Username conf) p
    (config.NotAllowWanAccess conf) (config.WebhookURL conf)
    (config.WebhookRequestBody conf) (config.WebhookHeaders conf)
    (config.Lang conf) (config.DnsConf conf).

Definition setDnsConf (conf : config.Config) (d : list config.DnsConfig)
  : config.Config :=
  config.mkConfig (config.Username conf) (config.Password conf)
    (config.NotAllowWanAccess conf) (config.WebhookURL conf)
    (config.WebhookRequestBody conf) (config.WebhookHeaders conf)
    (config.Lang conf) d.

Definition setID (d : config.DnsConfig) (id : string) : config.DnsConfig :=
  config.mkDnsConfig (config.Ipv4 d) (config.Ipv6 d)
    (config.DNS.mk (config.DNS.Name (config.DNS d)) id
       (config.DNS.Secret (config.DNS d)))
    (config.TTL d).

Definition setSecret (d : config.DnsConfig) (s : string) : config.DnsConfig :=
  config.mkDnsConfig (config.Ipv4 d) (config.Ipv6 d)
    (config.DNS.mk (config.DNS.Name (config.DNS d))
       (config.DNS.ID (config.DNS d)) s)
    (config.TTL d).

(** The messages of the handler, as keys of the message catalogue. *)
Definition msgParse : string := "数据解析失败, 请刷新页面重试".
Definition msgBootstrap : string := "请在ddns-go启动后 5 分钟内完成初始化配置".
Definition msgNeverSet : string :=
  "之前未设置帐号密码, 仅允许在ddns-go启动后 5 分钟内设置, 请重启ddns-go".
Definition msgMissing : string := "必须输入登录用户名/密码".
Definition msgNoDomain : string := "第 %s 个配置未填写域名".

(** ** The collaborators, as the spec describes them

    The functions below are not in [web/save.go]; they give the handler a
    concrete instance to run on. *)

Definition LF : string := String (ascii_of_N 10) "".

(** Modelled from the spec: [getHideIDSecret] is missing; §3 "Masked
    secret" is a placeholder derived from the real value, and in the
    scenario of §8 ["ABCDEF"] masks to ["AB****"]: the first bytes stay,
    two of them in the scenario, and every further byte becomes [*]. *)
Fixpoint mask (n : nat) (s : string) : string :=
  match s with
  | EmptyString => EmptyString
  | String c s' =>
      match n with
      | O => String "*" (mask O s')
      | S n' => String c (mask n' s')
      end
  end.

(** Modelled from the spec: [getHideIDSecret] with a mask that keeps [n]
    bytes; the ID and the Secret are masked each on its own. *)
Definition getHideIDSecretN (n : nat) (c : config.DnsConfig) : string * string :=
  (mask n (config.DNS.ID (config.DNS c)),
   mask n (config.DNS.Secret (config.DNS c))).

(** Modelled from the spec: [getHideIDSecret] as in the scenario of §8,
    where two bytes stay. *)
Definition getHideIDSecretSpec : config.DnsConfig -> string * string :=
  getHideIDSecretN 2.

(** The same mask on the bytes. *)
Fixpoint maskBytes (n : nat) (l : list ascii) : list ascii :=
  match l with
  | [] => []
  | c :: l' =>
      match n with
      | O => "*"%char :: maskBytes O l'
      | S n' => c :: maskBytes n' l'
      end
  end.

(** The lines of a text, split at the line feeds. *)
Fixpoint splitLF (s : string) : list string :=
  match s with
  | EmptyString => [EmptyString]
  | String c s' =>
      if Ascii.eqb c (ascii_of_N 10) then EmptyString :: splitLF s'
      else
        match splitLF s' with
        | line :: lines => String c line :: lines
        | [] => [String c EmptyString]
        end
  end.

Definition nonBlank (s : string) : bool := negb (s =? "").

(** Modelled from the spec: [util.SplitLines], §4.3 step 2: the lines of
    the text that are not blank, in their order. *)
Definition SplitLinesSpec (s : string) : list string :=
  filter nonBlank (splitLF s).

(** Modelled from the spec: [conf.CheckPassword] is missing; §4.2
    [ValidatePassword] gives the hash or a weak-password error, and asks
    for more when wide-area access is not blocked.  The thresholds (8 and
    12 bytes) and the hash (a tag before the password) are stand-ins. *)
Definition CheckPasswordSpec (conf : config.Config) (password : string)
  : string * option string :=
  let minLen := if config.NotAllowWanAccess conf then 8 else 12 in
  if (String.length password <? minLen)%nat
  then ("", Some "weak password")
  else (("hash:" ++ password)%string, None).

(** Modelled from the spec: [conf.SaveConfig] is missing; §6 [Save]
    returns an error or nil.  A gateway that always succeeds. *)
Definition SaveConfigOk (conf : config.Config) : option string := None.

(** Modelled from the spec: [conf.SaveConfig], §6; a gateway that always
    fails. *)
Definition SaveConfigFail (conf : config.Config) : option string :=
  Some "write failed".

(** Modelled from the spec: [util.InitLogLang] is missing; §6 maps the
    language-preference header to one of two catalogues. *)
Definition InitLogLangSpec (accept : string) : string :=
  if String.prefix "zh" accept then "zh" else "en".

(** Modelled from the spec: [util.LogStr] is missing; §6 message
    catalogues.  The catalogue of [zh] is the key itself, the other one
    tags it. *)
Definition LogStrSpec (l key : string) : string :=
  if l =? "zh" then key else ("en: " ++ key)%string.

(** Modelled from the spec: [util.Ordinal] is missing; §4.3 step 4 names
    the entry by its ordinal position.  The stand-in writes the last
    decimal digit. *)
Definition OrdinalSpec (n : nat) (l : string) : string :=
  String (ascii_of_nat (48 + n mod 10)) "".

(** Modelled from the spec: [getDnsConfStr] is missing; §6 the response
    carries the JSON-encoded domain list.  The stand-in lists the provider
    names. *)
Definition getDnsConfStrSpec (l : list config.DnsConfig) : string :=
  ("[" ++ strings.Join (map (fun c => config.DNS.Name (config.DNS c)) l) ","
   ++ "]")%string.

(** ** Sample states and requests *)

(** A persisted entry with one IPv4 domain list. *)
Definition entry (name id secret : string) (domains : list string)
  : config.DnsConfig :=
  config.mkDnsConfig
    (config.Ipv4.mk true "url" "https://ip.example" "" "" domains)
    (config.Ipv6.mk false "" "" "" "" "" [])
    (config.DNS.mk name id secret)
    "600".

(** A configuration with credentials and one entry, one whose credentials
    were never set, and the zero value of the first run. *)
Definition persisted : config.Config :=
  config.mkConfig "admin" "hash:correct horse battery" true "" "" "" "zh"
    [entry "alidns" "ABCDEF" "s3cr3t-value" ["a.example.com"]].

Definition noCredentials : config.Config :=
  config.mkConfig "" "" false "" "" "" "zh" [].

Definition zeroConfig : config.Config :=
  config.mkConfig "" "" false "" "" "" "" [].

(** The process [elapsed] seconds after its start. *)
Definition worldAt (conf : config.Config) (err : bool) (elapsed : Z) : World :=
  mkWorld conf err 1700000000 (1700000000 + elapsed) "zh" [] false 0 [].

(** A submitted entry with the given IPv4 domain text. *)
Definition dto (name id secret domains : string) : dnsConf4JS :=
  mkDnsConf4JS name id secret "600" true "url" "https://ip.example" "" ""
    domains false "" "" "" "" "" "".

(** A submitted entry that holds a blank ID and nothing else. *)
Definition blankDTO : dnsConf4JS :=
  mkDnsConf4JS "" " " "" "" false "" "" "" "" "" false "" "" "" "" "" "".

(** A request in Chinese that blocks WAN access, sets no webhook and
    brings the given credentials and entries. *)
Definition submit (user pass : string) (l : list dnsConf4JS) : Request :=
  mkRequest (Some (mkData user pass true "" "" "" l)) "zh".

(** A request that opens the instance to the WAN, sets a webhook and
    brings a password too short for that. *)
Definition weakRequest : Request :=
  mkRequest (Some (mkData "bob" "short" false "http://hook.example" "" "" []))
    "zh".

Section Handler.

(** The collaborators of the handler that live in other files of the
    repository; the handler is embedded over any implementation of them. *)

(** [getHideIDSecret]: the masked forms of an entry's ID and Secret. *)
Variable getHideIDSecret : config.DnsConfig -> string * string.
(** [util.SplitLines]. *)
Variable SplitLines : string -> list string.
(** [conf.CheckPassword]: the hash and the error ([None] for [nil]). *)
Variable CheckPassword : config.Config -> string -> string * option string.
(** [conf.SaveConfig]: the error of the durable write ([None] for [nil]). *)
Variable SaveConfig : config.Config -> option string.
(** [util.InitLogLang]: the language chosen for an [Accept-Language]. *)
Variable InitLogLang : string -> string.
(** [util.LogStr]: the message of a key in a language. *)
Variable LogStr : string -> string -> string.
(** [util.Ordinal]: the ordinal of a position in a language. *)
Variable Ordinal : nat -> string -> string.
(** [getDnsConfStr]: the JSON text of the domain list sent to the form. *)
Variable getDnsConfStr : list config.DnsConfig -> string.

(** Lines 95-118: the new entry built from the submitted one. *)
Definition newDnsConfig (v : dnsConf4JS) : config.DnsConfig :=
  config.mkDnsConfig
    (config.Ipv4.mk (Ipv4Enable v) (Ipv4GetType v)
       (strings.TrimSpace (Ipv4Url v)) (Ipv4NetInterface v)
       (strings.TrimSpace (Ipv4Cmd v)) (SplitLines (Ipv4Domains v)))
    (config.Ipv6.mk (Ipv6Enable v) (Ipv6GetType v)
       (strings.TrimSpace (Ipv6Url v)) (Ipv6NetInterface v)
       (strings.TrimSpace (Ipv6Cmd v)) (strings.TrimSpace (Ipv6Reg v))
       (SplitLines (Ipv6Domains v)))
    (config.DNS.mk (DnsName v) (strings.TrimSpace (DnsID v))
       (strings.TrimSpace (DnsSecret v)))
    (TTL v).

(** Lines 101-103: the warning for an entry without domains. *)
Definition warnNoDomain (conf : config.Config) (k : nat) (v : dnsConf4JS)
  : list LogLine :=
  if (Ipv4Domains v =? "") && (Ipv6Domains v =? "")
  then [mkLogLine (config.Lang conf) msgNoDomain
          [Ordinal (k + 1) (config.Lang conf)]]
  else [].

(** Lines 120-129: an ID or Secret submitted in its masked form keeps the
    persisted value.  [conf.DnsConf[k]] panics out of range: [None]. *)
Definition keepSecrets (old : list config.DnsConfig) (k : nat)
    (dnsConf : config.DnsConfig) : option config.DnsConfig :=
  if (k <? List.length old)%nat then
    match nth_error old k with
    | None => None
    | Some c =>
        let (idHide, secretHide) := getHideIDSecret c in
        let dnsConf :=
          if config.DNS.ID (config.DNS dnsConf) =? idHide
          then setID dnsConf (config.DNS.ID (config.DNS c)) else dnsConf in
        let dnsConf :=
          if config.DNS.Secret (config.DNS dnsConf) =? secretHide
          then setSecret dnsConf (config.DNS.Secret (config.DNS c))
          else dnsConf in
        Some dnsConf
    end
  else Some dnsConf.

(** The state of the loop: [dnsConfArray] and the lines logged so far. *)
Definition LoopState : Type := (list config.DnsConfig * list LogLine)%type.

(** Lines 92-131: one iteration of the loop, for index [k] and DTO [v]. *)
Definition loopBody (conf : config.Config) (k : nat) (v : dnsConf4JS)
    (st : LoopState) : option LoopState :=
  if dnsConf4JS_eqb v empty then Some st
  else
    let dnsConf := newDnsConfig v in
    let log := snd st ++ warnNoDomain conf k v in
    match keepSecrets (config.DnsConf conf) k dnsConf with
    | None => None
    | Some dnsConf => Some (fst st ++ [dnsConf], log)
    end.

(** Lines 91-132: [for k, v := range dnsConfFromJS], from index [k] on. *)
Fixpoint rangeFrom (conf : config.Config) (k : nat) (l : list dnsConf4JS)
    (st : LoopState) : option LoopState :=
  match l with
  | [] => Some st
  | v :: l' =>
      match loopBody conf k v st with
      | None => None
      | Some st' => rangeFrom conf (S k) l' st'
      end
  end.

(** The merge of the submitted entries with the configuration's. *)
Definition mergeDnsConf (conf : config.Config) (dnsConfFromJS : list dnsConf4JS)
  : option LoopState :=
  rangeFrom conf 0 dnsConfFromJS ([], []).

(** Lines 57-66: the bootstrap window; [Some] message key when the request
    is turned down. *)
Definition bootstrapGuard (w : World) (firstTime : bool)
    (conf : config.Config) (usernameNew passwordNew : string)
  : option string :=
  if (5 * 60 <? wrap64 (clock w - startTime w))%Z then
    if firstTime then Some msgBootstrap
    else if ((config.Username conf =? "") && (config.Password conf =? ""))
            && (negb (usernameNew =? "") || negb (passwordNew =? ""))
    then Some msgNeverSet
    else None
  else None.

(** Lines 68-74: the submitted settings and user name are assigned. *)
Definition assignSettings (conf : config.Config) (d : data)
    (usernameNew : string) : config.Config :=
  config.mkConfig usernameNew (config.Password conf)
    (NotAllowWanAccess d) (strings.TrimSpace (WebhookURL d))
    (strings.TrimSpace (WebhookRequestBody d))
    (strings.TrimSpace (WebhookHeaders d))
    (config.Lang conf) (config.DnsConf conf).

(** Lines 75-81: a submitted password is checked and its hash assigned;
    the error text comes back on the left. *)
Definition assignPassword (conf : config.Config) (passwordNew : string)
  : string + config.Config :=
  if passwordNew =? "" then inr conf
  else
    let (hashedPwd, err) := CheckPassword conf passwordNew in
    match err with
    | Some e => inl e
    | None => inr (setPassword conf hashedPwd)
    end.

(** Lines 30-81: the request is decoded, the bootstrap window checked and
    the credentials merged into [conf].  On the left an early [return]; on
    the right the state, [conf] and the decoded [data] at line 83.  Up to
    there the state has changed in the language of the messages only, which
    [util.InitLogLang] sets. *)
Definition mergeCredentials (w : World) (request : Request)
  : (Outcome * World) + (World * config.Config * data) :=
  let conf := cached w in
  let firstTime := cachedErr w in
  match Body request with
  | None => inl (Rejected RequestParseError (LogStr (lang w) msgParse), w)
  | Some d =>
      let usernameNew := strings.TrimSpace (Username d) in
      let passwordNew := Password d in
      let accept := AcceptLanguage request in
      let l := InitLogLang accept in
      let conf := setLang conf l in
      let w := mkWorld (cached w) (cachedErr w) (startTime w) (clock w) l
                 (logged w) (ForceCompareGlobal w) (runOnceStarted w)
                 (written w) in
      match bootstrapGuard w firstTime conf usernameNew passwordNew with
      | Some key => inl (Rejected BootstrapWindowError (LogStr l key), w)
      | None =>
          let conf := assignSettings conf d usernameNew in
          match assignPassword conf passwordNew with
          | inl e => inl (Rejected WeakPasswordError e, w)
          | inr conf => inr (w, conf, d)
          end
      end
  end.

(** Lines 29-147.  [None] stands for a run-time panic.  Once a write has
    succeeded a configuration is persisted, and [GetConfigCached] reports
    no error any more. *)
Definition checkAndSave (w : World) (request : Request)
  : option (Outcome * World) :=
  match mergeCredentials w request with
  | inl early => Some early
  | inr (w, conf, d) =>
      if (config.Username conf =? "") || (config.Password conf =? "")
      then Some (Rejected MissingCredentialsError (LogStr (lang w) msgMissing),
                 w)
      else
        match mergeDnsConf conf (DnsConf d) with
        | None => None
        | Some (dnsConfArray, log) =>
            let conf := setDnsConf conf dnsConfArray in
            let err := SaveConfig conf in
            Some (Written err,
                  mkWorld conf
                    (match err with
                     | None => false
                     | Some _ => cachedErr w
                     end)
                    (startTime w) (clock w) (lang w)
                    (logged w ++ log) true
                    (S (runOnceStarted w)) (written w ++ [conf]))
        end
  end.

(** A request passes validation when none of the early [return]s of lines
    46-86 is taken. *)
Definition passesValidation (w : World) (request : Request) : bool :=
  match mergeCredentials w request with
  | inl _ => false
  | inr (_, conf, _) =>
      negb ((config.Username conf =? "") || (config.Password conf =? ""))
  end.

(** The response of [Save]: the members of the JSON object, in the order
    [json.Marshal] writes the keys of a map. *)
Definition Response : Type := list (string * string).

(** Lines 17-27. *)
Definition Save (w : World) (request : Request) : option (Response * World) :=
  match checkAndSave w request with
  | None => None
  | Some (o, w') =>
      let result := resultOf o in
      let dnsConfJsonStr :=
        if result =? "ok" then getDnsConfStr (config.DnsConf (cached w'))
        else "[]" in
      Some ([("dnsConf", dnsConfJsonStr); ("result", result)], w')
  end.

(** The entry iteration [k] appends for a DTO [v] that is not the zero
    value. *)
Definition entryAt (conf : config.Config) (k : nat) (v : dnsConf4JS)
  : config.DnsConfig :=
  match keepSecrets (config.DnsConf conf) k (newDnsConfig v) with
  | Some dnsConf => dnsConf
  | None => newDnsConfig v
  end.

(** The entries and the warnings of the iterations from index [k] on. *)
Fixpoint entriesFrom (conf : config.Config) (k : nat) (l : list dnsConf4JS)
  : list config.DnsConfig :=
  match l with
  | [] => []
  | v :: l' =>
      if dnsConf4JS_eqb v empty then entriesFrom conf (S k) l'
      else entryAt conf k v :: entriesFrom conf (S k) l'
  end.

Fixpoint warningsFrom (conf : config.Config) (k : nat) (l : list dnsConf4JS)
  : list LogLine :=
  match l with
  | [] => []
  | v :: l' =>
      if dnsConf4JS_eqb v empty then warningsFrom conf (S k) l'
      else warnNoDomain conf k v ++ warningsFrom conf (S k) l'
  end.

(** The DTOs with their indices, and those that are not the zero value. *)
Definition indexed (l : list dnsConf4JS) : list (nat * dnsConf4JS) :=
  combine (seq 0 (List.length l)) l.

Definition isEntry (kv : nat * dnsConf4JS) : bool :=
  negb (dnsConf4JS_eqb (snd kv) empty).

(** The position in the output of the entry made from the DTO at index
    [k]: the number of DTOs before it that are not the zero value. *)
Definition slot (l : list dnsConf4JS) (k : nat) : nat :=
  List.length (filter (fun v => negb (dnsConf4JS_eqb v empty)) (firstn k l)).

(** Modelled from the spec: the form data built by [getDnsConfStr] is
    missing; §8 "masked-form output": the ID and the Secret of an entry are
    replaced by their masked forms, every other field is echoed back, the
    domain lists as newline-delimited text. *)
Definition maskedDTO (c : config.DnsConfig) : dnsConf4JS :=
  let (idHide, secretHide) := getHideIDSecret c in
  mkDnsConf4JS
    (config.DNS.Name (config.DNS c)) idHide secretHide (config.TTL c)
    (config.Ipv4.Enable (config.Ipv4 c)) (config.Ipv4.GetType (config.Ipv4 c))
    (config.Ipv4.URL (config.Ipv4 c)) (config.Ipv4.NetInterface (config.Ipv4 c))
    (config.Ipv4.Cmd (config.Ipv4 c))
    (strings.Join (config.Ipv4.Domains (config.Ipv4 c)) LF)
    (config.Ipv6.Enable (config.Ipv6 c)) (config.Ipv6.GetType (config.Ipv6 c))
    (config.Ipv6.URL (config.Ipv6 c)) (config.Ipv6.NetInterface (config.Ipv6 c))
    (config.Ipv6.Cmd (config.Ipv6 c)) (config.Ipv6.Ipv6Reg (config.Ipv6 c))
    (strings.Join (config.Ipv6.Domains (config.Ipv6 c)) LF).

(** ** Properties *)

(** *** The struct comparison *)

Lemma dnsConf4JS_eqb_eq (a b : dnsConf4JS) :
  dnsConf4JS_eqb a b = true <-> a = b.
Proof.
  split.
  - destruct a, b; unfold dnsConf4JS_eqb; simpl; intros H.
    repeat (apply andb_prop in H; destruct H as [H ?]).
    repeat match goal with
           | E : (_ =? _) = true |- _ => apply String.eqb_eq in E
           | E : Bool.eqb _ _ = true |- _ => apply Bool.eqb_prop in E
           end.
    subst; reflexivity.
  - intros ->. unfold dnsConf4JS_eqb.
    rewrite !String.eqb_refl, !Bool.eqb_reflx. reflexivity.
Qed.

Lemma dnsConf4JS_eqb_neq (a b : dnsConf4JS) :
  dnsConf4JS_eqb a b = false <-> a <> b.
Proof.
  split.
  - intros H E. apply dnsConf4JS_eqb_eq in E. congruence.
  - intros H. destruct (dnsConf4JS_eqb a b) eqn:E; [|reflexivity].
    apply dnsConf4JS_eqb_eq in E. contradiction.
Qed.

(** *** The loop *)

(** The index expression under its guard never panics. *)
Lemma keepSecrets_total (old : list config.DnsConfig) (k : nat)
    (dnsConf : config.DnsConfig) :
  exists d, keepSecrets old k dnsConf = Some d.
Proof.
  unfold keepSecrets.
  destruct (k <? List.length old)%nat eqn:E.
  - apply Nat.ltb_lt in E. apply nth_error_Some in E.
    destruct (nth_error old k) as [c|]; [|congruence].
    destruct (getHideIDSecret c). eauto.
  - eauto.
Qed.

Lemma keepSecrets_entryAt (conf : config.Config) (k : nat) (v : dnsConf4JS) :
  keepSecrets (config.DnsConf conf) k (newDnsConfig v) = Some (entryAt conf k v).
Proof.
  unfold entryAt.
  destruct (keepSecrets_total (config.DnsConf conf) k (newDnsConfig v)) as [d ->].
  reflexivity.
Qed.

Lemma rangeFrom_spec (conf : config.Config) (l : list dnsConf4JS) :
  forall (k : nat) (st : LoopState),
    rangeFrom conf k l st
    = Some (fst st ++ entriesFrom conf k l, snd st ++ warningsFrom conf k l).
Proof.
  induction l as [|v l IH]; intros k [a g]; simpl.
  - rewrite !app_nil_r. reflexivity.
  - unfold loopBody.
    destruct (dnsConf4JS_eqb v empty).
    + rewrite IH. reflexivity.
    + rewrite keepSecrets_entryAt, IH. simpl.
      rewrite <- !app_assoc. reflexivity.
Qed.

Lemma mergeDnsConf_spec (conf : config.Config) (l : list dnsConf4JS) :
  mergeDnsConf conf l = Some (entriesFrom conf 0 l, warningsFrom conf 0 l).
Proof. unfold mergeDnsConf. rewrite rangeFrom_spec. reflexivity. Qed.

Lemma entriesFrom_indexed (conf : config.Config) (l : list dnsConf4JS) :
  forall k : nat,
    entriesFrom conf k l
    = map (fun kv => entryAt conf (fst kv) (snd kv))
        (filter isEntry (combine (seq k (List.length l)) l)).
Proof.
  induction l as [|v l IH]; intros k; simpl; [reflexivity|].
  unfold isEntry at 1; simpl.
  destruct (dnsConf4JS_eqb v empty); simpl; rewrite IH; reflexivity.
Qed.

Lemma slot_cons (v : dnsConf4JS) (l : list dnsConf4JS) (j : nat) :
  slot (v :: l) (S j)
  = if dnsConf4JS_eqb v empty then slot l j else S (slot l j).
Proof.
  unfold slot; simpl. destruct (dnsConf4JS_eqb v empty); reflexivity.
Qed.

(** The DTO at index [j] that is not the zero value gives the entry at
    position [slot l j] of the output. *)
Lemma entriesFrom_slot (conf : config.Config) (l : list dnsConf4JS) :
  forall (k j : nat) (v : dnsConf4JS),
    nth_error l j = Some v ->
    v <> empty ->
    nth_error (entriesFrom conf k l) (slot l j) = Some (entryAt conf (k + j) v).
Proof.
  induction l as [|u l IH]; intros k j v Hj Hv.
  - destruct j; discriminate.
  - destruct j as [|j]; simpl in Hj.
    + injection Hj as ->. apply dnsConf4JS_eqb_neq in Hv.
      simpl. rewrite Hv. unfold slot; simpl. rewrite Nat.add_0_r. reflexivity.
    + rewrite slot_cons. simpl.
      replace (k + S j) with (S k + j) by lia.
      destruct (dnsConf4JS_eqb u empty); simpl; apply IH; assumption.
Qed.

(** The entry of an index that the persisted sequence has. *)
Lemma entryAt_inside (conf : config.Config) (k : nat) (v : dnsConf4JS)
    (c : config.DnsConfig) :
  nth_error (config.DnsConf conf) k = Some c ->
  entryAt conf k v
  = let d := newDnsConfig v in
    let d := if config.DNS.ID (config.DNS d) =? fst (getHideIDSecret c)
             then setID d (config.DNS.ID (config.DNS c)) else d in
    if config.DNS.Secret (config.DNS d) =? snd (getHideIDSecret c)
    then setSecret d (config.DNS.Secret (config.DNS c)) else d.
Proof.
  intros Hc. unfold entryAt, keepSecrets.
  assert (k < List.length (config.DnsConf conf)) as Hlt
    by (apply nth_error_Some; congruence).
  apply Nat.ltb_lt in Hlt. rewrite Hlt, Hc.
  destruct (getHideIDSecret c) as [idHide secretHide]. reflexivity.
Qed.

(** The entry of an index beyond the persisted sequence. *)
Lemma entryAt_outside (conf : config.Config) (k : nat) (v : dnsConf4JS) :
  List.length (config.DnsConf conf) <= k ->
  entryAt conf k v = newDnsConfig v.
Proof.
  intros Hk. unfold entryAt, keepSecrets.
  apply Nat.ltb_ge in Hk. rewrite Hk. reflexivity.
Qed.

(** Secret preservation touches the ID and the Secret only. *)
Lemma entryAt_rest (conf : config.Config) (k : nat) (v : dnsConf4JS) :
  config.Ipv4 (entryAt conf k v) = config.Ipv4 (newDnsConfig v)
  /\ config.Ipv6 (entryAt conf k v) = config.Ipv6 (newDnsConfig v)
  /\ config.DNS.Name (config.DNS (entryAt conf k v)) = DnsName v
  /\ config.TTL (entryAt conf k v) = TTL v.
Proof.
  destruct (nth_error (config.DnsConf conf) k) as [c|] eqn:Hc.
  - rewrite (entryAt_inside conf k v c Hc). cbn zeta.
    repeat match goal with
           | |- context [if ?b then _ else _] => destruct b
           end; repeat split; reflexivity.
  - apply nth_error_None in Hc. rewrite (entryAt_outside conf k v Hc).
    repeat split; reflexivity.
Qed.

(** Where the ID and the Secret of a merged entry come from. *)
Lemma entryAt_credentials (conf : config.Config) (k : nat) (v : dnsConf4JS) :
  (config.DNS.ID (config.DNS (entryAt conf k v)) = strings.TrimSpace (DnsID v)
   \/ exists c,
        nth_error (config.DnsConf conf) k = Some c
        /\ strings.TrimSpace (DnsID v) = fst (getHideIDSecret c)
        /\ config.DNS.ID (config.DNS (entryAt conf k v))
           = config.DNS.ID (config.DNS c))
  /\ (config.DNS.Secret (config.DNS (entryAt conf k v))
      = strings.TrimSpace (DnsSecret v)
      \/ exists c,
           nth_error (config.DnsConf conf) k = Some c
           /\ strings.TrimSpace (DnsSecret v) = snd (getHideIDSecret c)
           /\ config.DNS.Secret (config.DNS (entryAt conf k v))
              = config.DNS.Secret (config.DNS c)).
Proof.
  destruct (nth_error (config.DnsConf conf) k) as [c|] eqn:Hc.
  - rewrite (entryAt_inside conf k v c Hc). cbn zeta.
    change (config.DNS.ID (config.DNS (newDnsConfig v)))
      with (strings.TrimSpace (DnsID v)).
    destruct (strings.TrimSpace (DnsID v) =? fst (getHideIDSecret c)) eqn:E1;
      cbn [setID config.DNS config.DNS.Secret newDnsConfig];
      destruct (strings.TrimSpace (DnsSecret v) =? snd (getHideIDSecret c))
        eqn:E2;
      try apply String.eqb_eq in E1; try apply String.eqb_eq in E2;
      split; try (left; reflexivity); right; exists c; auto.
  - apply nth_error_None in Hc. rewrite (entryAt_outside conf k v Hc).
    split; left; reflexivity.
Qed.

(** *** The claims on the merge *)

(** C1 (secret preservation): for an index [k] that the submitted and the
    persisted sequence both have, the entry merged from the DTO at [k] has
    the persisted ID when the trimmed submitted ID equals the masked form of
    the persisted entry, and the trimmed submitted ID otherwise; the Secret
    follows the same rule on its own. *)
Theorem secret_preservation
    (conf : config.Config) (dnsConfFromJS : list dnsConf4JS)
    (k : nat) (v : dnsConf4JS) (c : config.DnsConfig) :
  nth_error dnsConfFromJS k = Some v ->
  v <> empty ->
  nth_error (config.DnsConf conf) k = Some c ->
  exists dnsConfArray log e,
    mergeDnsConf conf dnsConfFromJS = Some (dnsConfArray, log)
    /\ nth_error dnsConfArray (slot dnsConfFromJS k) = Some e
    /\ config.DNS.ID (config.DNS e)
       = (if strings.TrimSpace (DnsID v) =? fst (getHideIDSecret c)
          then config.DNS.ID (config.DNS c)
          else strings.TrimSpace (DnsID v))
    /\ config.DNS.Secret (config.DNS e)
       = (if strings.TrimSpace (DnsSecret v) =? snd (getHideIDSecret c)
          then config.DNS.Secret (config.DNS c)
          else strings.TrimSpace (DnsSecret v)).
Proof.
  intros Hv Hne Hc.
  exists (entriesFrom conf 0 dnsConfFromJS), (warningsFrom conf 0 dnsConfFromJS),
    (entryAt conf k v).
  split; [apply mergeDnsConf_spec|].
  split; [apply (entriesFrom_slot conf dnsConfFromJS 0 k v Hv Hne)|].
  rewrite (entryAt_inside conf k v c Hc). cbn zeta.
  change (config.DNS.ID (config.DNS (newDnsConfig v)))
    with (strings.TrimSpace (DnsID v)).
  destruct (strings.TrimSpace (DnsID v) =? fst (getHideIDSecret c));
    cbn [setID config.DNS config.DNS.Secret newDnsConfig];
    destruct (strings.TrimSpace (DnsSecret v) =? snd (getHideIDSecret c));
    split; reflexivity.
Qed.

(** C4 (sentinels dropped, order kept): the merge never fails, and its
    output is the list of the entries made from the DTOs that are not the
    zero value, one for each, in the order of the DTOs. *)
Theorem merge_filters_in_order
    (conf : config.Config) (dnsConfFromJS : list dnsConf4JS) :
  exists log,
    mergeDnsConf conf dnsConfFromJS
    = Some (map (fun kv => entryAt conf (fst kv) (snd kv))
              (filter isEntry (indexed dnsConfFromJS)), log).
Proof.
  exists (warningsFrom conf 0 dnsConfFromJS).
  rewrite mergeDnsConf_spec, entriesFrom_indexed. reflexivity.
Qed.

(** C10 (guarded indexing): the merge loop never indexes out of range, so
    it always returns; and for an index at or beyond the length of the
    persisted sequence the merged entry carries the trimmed submitted ID
    and Secret, whatever masked form they may coincide with. *)
Theorem guarded_indexing
    (conf : config.Config) (dnsConfFromJS : list dnsConf4JS) :
  exists dnsConfArray log,
    mergeDnsConf conf dnsConfFromJS = Some (dnsConfArray, log)
    /\ forall (k : nat) (v : dnsConf4JS),
         nth_error dnsConfFromJS k = Some v ->
         v <> empty ->
         List.length (config.DnsConf conf) <= k ->
         exists e,
           nth_error dnsConfArray (slot dnsConfFromJS k) = Some e
           /\ keepSecrets (config.DnsConf conf) k (newDnsConfig v)
              = Some (newDnsConfig v)
           /\ config.DNS.ID (config.DNS e) = strings.TrimSpace (DnsID v)
           /\ config.DNS.Secret (config.DNS e)
              = strings.TrimSpace (DnsSecret v).
Proof.
  exists (entriesFrom conf 0 dnsConfFromJS), (warningsFrom conf 0 dnsConfFromJS).
  split; [apply mergeDnsConf_spec|].
  intros k v Hv Hne Hk.
  exists (entryAt conf k v).
  split; [apply (entriesFrom_slot conf dnsConfFromJS 0 k v Hv Hne)|].
  rewrite keepSecrets_entryAt, (entryAt_outside conf k v Hk).
  repeat split; reflexivity.
Qed.

(** *** The claims on the handler *)

(** The early [return]s of lines 46-81 write nothing and start nothing. *)
Lemma mergeCredentials_early (w : World) (request : Request)
    (o : Outcome) (w' : World) :
  mergeCredentials w request = inl (o, w') ->
  (exists why msg, o = Rejected why msg /\ why <> MissingCredentialsError)
  /\ written w' = written w
  /\ runOnceStarted w' = runOnceStarted w
  /\ ForceCompareGlobal w' = ForceCompareGlobal w
  /\ logged w' = logged w
  /\ cached w' = cached w.
Proof.
  unfold mergeCredentials.
  destruct (Body request) as [d|].
  - destruct (bootstrapGuard _ _ _ _ _) as [key|].
    + intros [= <- <-]. simpl. repeat split; eauto.
      do 2 eexists; split; [reflexivity|discriminate].
    + destruct (assignPassword _ _) as [e|conf]; [|discriminate].
      intros [= <- <-]. simpl. repeat split; eauto.
      do 2 eexists; split; [reflexivity|discriminate].
  - intros [= <- <-]. repeat split; eauto.
    do 2 eexists; split; [reflexivity|discriminate].
Qed.

(** Past line 81 the state differs from the initial one in the language
    of the messages only; [conf] has the persisted domain list. *)
Lemma mergeCredentials_late (w : World) (request : Request)
    (w1 : World) (conf : config.Config) (d : data) :
  mergeCredentials w request = inr (w1, conf, d) ->
  Body request = Some d
  /\ cached w1 = cached w
  /\ lang w1 = InitLogLang (AcceptLanguage request)
  /\ written w1 = written w
  /\ runOnceStarted w1 = runOnceStarted w
  /\ logged w1 = logged w
  /\ config.DnsConf conf = config.DnsConf (cached w)
  /\ config.Lang conf = InitLogLang (AcceptLanguage request).
Proof.
  unfold mergeCredentials.
  destruct (Body request) as [d0|]; [|discriminate].
  destruct (bootstrapGuard _ _ _ _ _) as [key|]; [discriminate|].
  unfold assignPassword.
  destruct (Password d0 =? "").
  - intros [= <- <- <-]. simpl. repeat split; reflexivity.
  - destruct (CheckPassword _ _) as [h [e|]]; [discriminate|].
    intros [= <- <- <-]. simpl. repeat split; reflexivity.
Qed.

(** The handler always returns: no path panics. *)
Lemma checkAndSave_returns (w : World) (request : Request) :
  exists o w', checkAndSave w request = Some (o, w').
Proof.
  unfold checkAndSave.
  destruct (mergeCredentials w request) as [[o w']|[[w1 conf] d]]; [eauto|].
  destruct (_ || _); [eauto|].
  rewrite mergeDnsConf_spec. eauto.
Qed.

(** C6 (persistence and trigger): the handler always returns.  A request
    that passes validation calls the durable write exactly once, on the
    final configuration, and whatever error the write gives, the
    force-recompute flag is true afterwards and one synchronization pass
    has been started; a request that is rejected (parse, bootstrap, weak
    password, missing credentials) calls no write and starts no pass. *)
Theorem write_once_then_trigger (w : World) (request : Request) :
  exists o w',
    checkAndSave w request = Some (o, w')
    /\ if passesValidation w request
       then o = Written (SaveConfig (cached w'))
            /\ written w' = written w ++ [cached w']
            /\ ForceCompareGlobal w' = true
            /\ runOnceStarted w' = S (runOnceStarted w)
       else (exists why msg, o = Rejected why msg)
            /\ written w' = written w
            /\ runOnceStarted w' = runOnceStarted w.
Proof.
  unfold checkAndSave, passesValidation.
  destruct (mergeCredentials w request) as [[o w']|[[w1 conf] d]] eqn:E.
  - exists o, w'. split; [reflexivity|].
    destruct (mergeCredentials_early _ _ _ _ E)
      as [(why & msg & -> & _) (Hw & Hr & _)].
    repeat split; eauto.
  - destruct (mergeCredentials_late _ _ _ _ _ E)
      as (_ & _ & _ & Hw & Hr & _).
    destruct ((config.Username conf =? "") || (config.Password conf =? "")).
    + do 2 eexists. split; [reflexivity|]. simpl. repeat split; eauto.
    + rewrite mergeDnsConf_spec.
      do 2 eexists. split; [reflexivity|]. simpl.
      rewrite Hw, Hr. repeat split; reflexivity.
Qed.

(** C5 (credentials invariant): after a save that reached the durable
    write, and so after every successful one, the user name and the password
    hash of the configuration are not empty; and when either of them is
    empty once the credentials are merged, the handler returns the
    missing-credentials message, writes nothing and starts no pass. *)
Theorem credentials_not_empty (w : World) (request : Request)
    (o : Outcome) (w' : World) :
  checkAndSave w request = Some (o, w') ->
  (forall err, o = Written err ->
     config.Username (cached w') <> "" /\ config.Password (cached w') <> "")
  /\ (forall w1 conf d,
        mergeCredentials w request = inr (w1, conf, d) ->
        config.Username conf = "" \/ config.Password conf = "" ->
        o = Rejected MissingCredentialsError (LogStr (lang w1) msgMissing)
        /\ written w' = written w
        /\ runOnceStarted w' = runOnceStarted w).
Proof.
  unfold checkAndSave.
  destruct (mergeCredentials w request) as [[o0 w0]|[[w1 conf] d]] eqn:E.
  - intros [= <- <-]. split; [|discriminate].
    intros err ->.
    destruct (mergeCredentials_early _ _ _ _ E) as [(why & msg & H & _) _].
    discriminate.
  - destruct (mergeCredentials_late _ _ _ _ _ E)
      as (_ & _ & _ & Hw & Hr & _).
    destruct (config.Username conf =? "") eqn:EU;
      [|destruct (config.Password conf =? "") eqn:EP]; simpl.
    + intros [= <- <-]. split; [discriminate|].
      intros ? ? ? [= <- <- <-] _. auto.
    + intros [= <- <-]. split; [discriminate|].
      intros ? ? ? [= <- <- <-] _. auto.
    + rewrite mergeDnsConf_spec. intros [= <- <-]. simpl.
      apply String.eqb_neq in EU, EP. split; [auto|].
      intros ? ? ? [= <- <- <-] [H|H]; contradiction.
Qed.

(** C7 (response): [Save] always answers, with a JSON object of two
    members.  [result] is ["ok"] or the message of one of the errors; and
    [dnsConf] is the encoded current domain list when [result] is ["ok"],
    and ["[]"] whenever it is not. *)
Theorem response_shape (w : World) (request : Request) :
  exists result dnsConf o w',
    Save w request = Some ([("dnsConf", dnsConf); ("result", result)], w')
    /\ checkAndSave w request = Some (o, w')
    /\ result = resultOf o
    /\ (result = "ok"
        \/ (exists l key,
              In key [msgParse; msgBootstrap; msgNeverSet; msgMissing]
              /\ result = LogStr l key)
        \/ (exists conf password,
              snd (CheckPassword conf password) = Some result)
        \/ (exists conf, SaveConfig conf = Some result))
    /\ (result = "ok" -> dnsConf = getDnsConfStr (config.DnsConf (cached w')))
    /\ (result <> "ok" -> dnsConf = "[]").
Proof.
  destruct (checkAndSave_returns w request) as (o & w' & E).
  unfold Save. rewrite E.
  exists (resultOf o),
    (if resultOf o =? "ok" then getDnsConfStr (config.DnsConf (cached w'))
     else "[]"), o, w'.
  split; [reflexivity|]. split; [reflexivity|]. split; [reflexivity|].
  split.
  - revert E. unfold checkAndSave, mergeCredentials.
    destruct (Body request) as [d|].
    + destruct (bootstrapGuard _ _ _ _ _) as [key|] eqn:G.
      * intros [= <- _]. right; left. do 2 eexists; split; [|reflexivity].
        revert G. unfold bootstrapGuard.
        repeat match goal with
               | |- context [if ?b then _ else _] => destruct b
               end; intros [= <-]; simpl; auto.
      * unfold assignPassword.
        destruct (Password d =? "").
        -- match goal with
           | |- context [if ?b then _ else _] => destruct b
           end.
           ++ intros [= <- _]. right; left.
              do 2 eexists; split; [|reflexivity]. simpl; auto.
           ++ rewrite mergeDnsConf_spec. intros [= <- _]. simpl.
              match goal with
              | |- context [SaveConfig ?c] =>
                  destruct (SaveConfig c) as [e|] eqn:S; [|auto]
              end.
              right; right; right. eauto.
        -- match goal with
           | |- context [CheckPassword ?c ?p] =>
               destruct (CheckPassword c p) as [h [e|]] eqn:C
           end.
           ++ intros [= <- _]. right; right; left.
              do 2 eexists. rewrite C. reflexivity.
           ++ match goal with
              | |- context [if ?b then _ else _] => destruct b
              end.
              ** intros [= <- _]. right; left.
                 do 2 eexists; split; [|reflexivity]. simpl; auto.
              ** rewrite mergeDnsConf_spec. intros [= <- _]. simpl.
                 match goal with
                 | |- context [SaveConfig ?c] =>
                     destruct (SaveConfig c) as [e|] eqn:S; [|auto]
                 end.
                 right; right; right. eauto.
    + intros [= <- _]. right; left.
      do 2 eexists; split; [|reflexivity]. simpl; auto.
  - split.
    + intros ->. reflexivity.
    + intros H. apply String.eqb_neq in H. rewrite H. reflexivity.
Qed.

Lemma wrap64_small (z : Z) :
  (- 9223372036854775808 <= z < 9223372036854775808)%Z -> wrap64 z = z.
Proof.
  intros H. unfold wrap64. rewrite Z.mod_small; lia.
Qed.

(** C2, amended (bootstrap window): take a request whose body decodes, at
    a time whose distance from the process start fits [int64].  More than
    5 minutes after the start it is turned down with the bootstrap-window
    message when no configuration was ever persisted, and with the
    credentials-never-set message when the persisted user name and password
    are both empty and the request brings a user name that is not empty
    once trimmed, or a password that is not empty.  Up to 5 minutes after
    the start no request is turned down by the bootstrap guard. *)
Theorem bootstrap_window (w : World) (request : Request) (d : data) :
  Body request = Some d ->
  (- 9223372036854775808 <= clock w - startTime w < 9223372036854775808)%Z ->
  exists o w',
    checkAndSave w request = Some (o, w')
    /\ ((5 * 60 < clock w - startTime w)%Z ->
        cachedErr w = true ->
        o = Rejected BootstrapWindowError
              (LogStr (InitLogLang (AcceptLanguage request)) msgBootstrap))
    /\ ((5 * 60 < clock w - startTime w)%Z ->
        cachedErr w = false ->
        config.Username (cached w) = "" ->
        config.Password (cached w) = "" ->
        strings.TrimSpace (Username d) <> "" \/ Password d <> "" ->
        o = Rejected BootstrapWindowError
              (LogStr (InitLogLang (AcceptLanguage request)) msgNeverSet))
    /\ ((clock w - startTime w <= 5 * 60)%Z ->
        forall msg, o <> Rejected BootstrapWindowError msg).
Proof.
  intros HB Hrange.
  destruct (checkAndSave_returns w request) as (o & w' & E).
  exists o, w'. split; [exact E|].
  revert E. unfold checkAndSave, mergeCredentials, bootstrapGuard.
  rewrite HB. cbn [clock startTime].
  rewrite (wrap64_small _ Hrange).
  destruct (5 * 60 <? clock w - startTime w)%Z eqn:T.
  - apply Z.ltb_lt in T.
    destruct (cachedErr w) eqn:F.
    + intros [= <- _]. repeat split; [discriminate|lia].
    + cbn [setLang config.Username config.Password].
      destruct ((config.Username (cached w) =? "")
                && (config.Password (cached w) =? "")) eqn:C.
      * destruct (negb (strings.TrimSpace (Username d) =? "")
                  || negb (Password d =? "")) eqn:N.
        -- intros [= <- _]. repeat split; [discriminate|lia].
        -- intros _. repeat split; [discriminate| |lia].
           intros _ _ _ _ [H|H]; apply String.eqb_neq in H;
             rewrite H in N; simpl in N;
             [discriminate|rewrite orb_true_r in N; discriminate].
      * intros _. repeat split; [discriminate| |lia].
        intros _ _ HU HP _. rewrite HU, HP in C. discriminate.
  - apply Z.ltb_ge in T.
    intros E. repeat split; [lia|lia|].
    intros _ msg ->. revert E.
    destruct (assignPassword _ _) as [e|conf]; [discriminate|].
    destruct (_ || _); [discriminate|].
    rewrite mergeDnsConf_spec. discriminate.
Qed.

(** C3 (a rejection mutates nothing): a request that is turned down for
    a weak password or for missing credentials has a body that decodes,
    and leaves the configuration as it was, every field of it:
    [NotAllowWanAccess], the webhook settings, the user name, the password
    hash and the domain list.  It writes nothing, logs nothing and starts
    no pass: what lines 68-81 assign to [conf] goes no further. *)
Theorem rejection_mutates_nothing (w : World) (request : Request)
    (why : Rejection) (msg : string) (w' : World) :
  checkAndSave w request = Some (Rejected why msg, w') ->
  why = WeakPasswordError \/ why = MissingCredentialsError ->
  (exists d, Body request = Some d)
  /\ cached w' = cached w
  /\ config.NotAllowWanAccess (cached w')
     = config.NotAllowWanAccess (cached w)
  /\ config.WebhookURL (cached w') = config.WebhookURL (cached w)
  /\ config.WebhookRequestBody (cached w')
     = config.WebhookRequestBody (cached w)
  /\ config.WebhookHeaders (cached w') = config.WebhookHeaders (cached w)
  /\ config.Username (cached w') = config.Username (cached w)
  /\ config.Password (cached w') = config.Password (cached w)
  /\ config.DnsConf (cached w') = config.DnsConf (cached w)
  /\ written w' = written w
  /\ logged w' = logged w
  /\ runOnceStarted w' = runOnceStarted w
  /\ ForceCompareGlobal w' = ForceCompareGlobal w.
Proof.
  intros E Hwhy.
  assert ((exists d, Body request = Some d)
          /\ cached w' = cached w /\ written w' = written w
          /\ logged w' = logged w
          /\ runOnceStarted w' = runOnceStarted w
          /\ ForceCompareGlobal w' = ForceCompareGlobal w) as H.
  { revert E. unfold checkAndSave.
    destruct (mergeCredentials w request) as [[o0 w0]|[[w1 conf] d]] eqn:M.
    - intros [= -> ->].
      destruct (mergeCredentials_early _ _ _ _ M)
        as (_ & Hw & Hr & Hf & Hl & Hc).
      split; [|repeat split; assumption].
      revert M. unfold mergeCredentials.
      destruct (Body request) as [d|]; [eauto|].
      intros [= <- _]. destruct Hwhy; discriminate.
    - destruct (mergeCredentials_late _ _ _ _ _ M)
        as (HB & Hc & _ & Hw & Hr & Hl & _).
      assert (ForceCompareGlobal w1 = ForceCompareGlobal w) as Hf.
      { revert M. unfold mergeCredentials.
        destruct (Body request) as [d0|]; [|discriminate].
        destruct (bootstrapGuard _ _ _ _ _); [discriminate|].
        destruct (assignPassword _ _); [discriminate|].
        intros [= <- _ _]. reflexivity. }
      destruct (_ || _).
      + intros [= _ _ <-]. split; [eauto|]. repeat split; assumption.
      + rewrite mergeDnsConf_spec. discriminate. }
  destruct H as (HB & Hc & Hw & Hl & Hr & Hf).
  rewrite Hc. repeat split; assumption.
Qed.

Lemma warningsFrom_slot (conf : config.Config) (l : list dnsConf4JS) :
  forall (k j : nat) (v : dnsConf4JS),
    nth_error l j = Some v ->
    v <> empty ->
    Ipv4Domains v = "" ->
    Ipv6Domains v = "" ->
    In (mkLogLine (config.Lang conf) msgNoDomain
          [Ordinal (k + j + 1) (config.Lang conf)])
       (warningsFrom conf k l).
Proof.
  induction l as [|u l IH]; intros k j v Hj Hv H4 H6.
  - destruct j; discriminate.
  - destruct j as [|j]; simpl in Hj.
    + injection Hj as ->. apply dnsConf4JS_eqb_neq in Hv.
      simpl. rewrite Hv. unfold warnNoDomain. rewrite H4, H6.
      rewrite Nat.add_0_r. simpl. auto.
    + simpl. replace (k + S j + 1) with (S k + j + 1) by lia.
      destruct (dnsConf4JS_eqb u empty);
        [|apply in_or_app; right]; apply (IH (S k) j v); assumption.
Qed.

(** C8, amended (entry without domains): for a request that passes
    validation, every submitted DTO that is not the zero value and whose
    IPv4 and IPv6 domain texts are both the empty string has a warning
    logged that names its ordinal position; its entry is in the saved
    domain list all the same, and the save goes on to the durable write. *)
Theorem warns_on_empty_domain_text (w : World) (request : Request)
    (d : data) (k : nat) (v : dnsConf4JS) :
  passesValidation w request = true ->
  Body request = Some d ->
  nth_error (DnsConf d) k = Some v ->
  v <> empty ->
  Ipv4Domains v = "" ->
  Ipv6Domains v = "" ->
  exists err w' e,
    checkAndSave w request = Some (Written err, w')
    /\ In (mkLogLine (InitLogLang (AcceptLanguage request)) msgNoDomain
             [Ordinal (k + 1) (InitLogLang (AcceptLanguage request))])
          (logged w')
    /\ nth_error (config.DnsConf (cached w')) (slot (DnsConf d) k) = Some e
    /\ config.DNS.Name (config.DNS e) = DnsName v.
Proof.
  unfold passesValidation, checkAndSave.
  destruct (mergeCredentials w request) as [[o0 w0]|[[w1 conf] d0]] eqn:E;
    [discriminate|].
  destruct (mergeCredentials_late _ _ _ _ _ E)
    as (HB & _ & _ & _ & _ & _ & _ & HL).
  intros HV HB' Hk Hne H4 H6.
  rewrite HB in HB'. injection HB' as ->.
  apply negb_true_iff in HV. rewrite HV, mergeDnsConf_spec.
  do 3 eexists. split; [reflexivity|]. simpl.
  split; [|split].
  - apply in_or_app; right. rewrite <- HL.
    apply (warningsFrom_slot conf (DnsConf d) 0 k v Hk Hne H4 H6).
  - apply (entriesFrom_slot conf (DnsConf d) 0 k v Hk Hne).
  - apply entryAt_rest.
Qed.

(** The domain list a save leaves is the output of the merge loop. *)
Lemma saved_entries (w : World) (request : Request)
    (err : option string) (w' : World) :
  checkAndSave w request = Some (Written err, w') ->
  exists conf dnsConfFromJS,
    config.DnsConf (cached w') = entriesFrom conf 0 dnsConfFromJS.
Proof.
  unfold checkAndSave.
  destruct (mergeCredentials w request) as [[o0 w0]|[[w1 conf] d]] eqn:E.
  - intros [= -> _].
    destruct (mergeCredentials_early _ _ _ _ E) as [(why & msg & H & _) _].
    discriminate.
  - destruct (_ || _); [discriminate|].
    rewrite mergeDnsConf_spec. intros [= _ <-]. simpl. eauto.
Qed.

(** A persisted sequence that is submitted again in its masked form comes
    back as it is, when no masked entry is the zero value, the masked forms
    are trimmed and the other fields survive the way through the form. *)
Lemma resubmit_entries (conf2 : config.Config) :
  forall (suf pre : list config.DnsConfig),
    config.DnsConf conf2 = pre ++ suf ->
    Forall (fun c =>
              maskedDTO c <> empty
              /\ strings.TrimSpace (fst (getHideIDSecret c))
                 = fst (getHideIDSecret c)
              /\ strings.TrimSpace (snd (getHideIDSecret c))
                 = snd (getHideIDSecret c)
              /\ config.Ipv4 (newDnsConfig (maskedDTO c)) = config.Ipv4 c
              /\ config.Ipv6 (newDnsConfig (maskedDTO c)) = config.Ipv6 c)
           suf ->
    entriesFrom conf2 (List.length pre) (map maskedDTO suf) = suf.
Proof.
  induction suf as [|c suf IH]; intros pre Hconf Hall; [reflexivity|].
  inversion Hall as [|? ? (Hne & Hid & Hsec & H4 & H6) Hrest]; subst.
  simpl. apply dnsConf4JS_eqb_neq in Hne. rewrite Hne. f_equal.
  - assert (nth_error (config.DnsConf conf2) (List.length pre) = Some c) as Hc.
    { rewrite Hconf, nth_error_app2, Nat.sub_diag by lia. reflexivity. }
    rewrite (entryAt_inside conf2 _ _ c Hc). cbn zeta.
    revert H4 H6. unfold newDnsConfig, maskedDTO.
    destruct (getHideIDSecret c) as [idHide secretHide].
    cbn in Hid, Hsec |- *. rewrite Hid, String.eqb_refl.
    cbn. rewrite Hsec, String.eqb_refl.
    intros -> ->. destruct c as [i4 i6 [n i x] t]. reflexivity.
  - replace (S (List.length pre)) with (List.length (pre ++ [c]))
      by (rewrite length_app; simpl; lia).
    apply IH; [|assumption].
    rewrite Hconf, <- app_assoc. reflexivity.
Qed.

(** *** Further properties of the handler *)

(** X1 (parse error): the handler returns the parse-error rejection
    exactly when the body does not decode; the message is then in the
    language in force before the request, and the whole state, the
    language included, is as it was. *)
Theorem parse_error_iff (w : World) (request : Request)
    (msg : string) (w' : World) :
  checkAndSave w request = Some (Rejected RequestParseError msg, w')
  <-> Body request = None /\ msg = LogStr (lang w) msgParse /\ w' = w.
Proof.
  unfold checkAndSave, mergeCredentials. split.
  - destruct (Body request) as [d|].
    + destruct (bootstrapGuard _ _ _ _ _) as [key|]; [discriminate|].
      destruct (assignPassword _ _) as [e|conf]; [discriminate|].
      destruct (_ || _); [discriminate|].
      rewrite mergeDnsConf_spec. discriminate.
    + intros [= <- <-]. auto.
  - intros (-> & -> & ->). reflexivity.
Qed.

(** X2 (bootstrap rejection): a request turned down by the bootstrap
    window comes after the 5 minutes and carries one of the two window
    messages in the language of the request; it leaves the configuration,
    the log and the writes as they were and starts no pass. *)
Theorem bootstrap_rejection_leaves_configuration (w : World)
    (request : Request) (msg : string) (w' : World) :
  checkAndSave w request = Some (Rejected BootstrapWindowError msg, w') ->
  (5 * 60 < wrap64 (clock w - startTime w))%Z
  /\ (msg = LogStr (InitLogLang (AcceptLanguage request)) msgBootstrap
      \/ msg = LogStr (InitLogLang (AcceptLanguage request)) msgNeverSet)
  /\ cached w' = cached w
  /\ cachedErr w' = cachedErr w
  /\ written w' = written w
  /\ logged w' = logged w
  /\ runOnceStarted w' = runOnceStarted w
  /\ ForceCompareGlobal w' = ForceCompareGlobal w.
Proof.
  unfold checkAndSave, mergeCredentials.
  destruct (Body request) as [d|]; [|discriminate].
  destruct (bootstrapGuard _ _ _ _ _) as [key|] eqn:G.
  - intros [= <- <-]. revert G. unfold bootstrapGuard. cbn [clock startTime].
    destruct (5 * 60 <? wrap64 (clock w - startTime w))%Z eqn:T;
      [|discriminate].
    apply Z.ltb_lt in T. intros G. split; [exact T|].
    split; [|repeat split; reflexivity].
    revert G. destruct (cachedErr w).
    + intros [= <-]. auto.
    + destruct (_ && _); [|discriminate].
      intros [= <-]. auto.
  - destruct (assignPassword _ _) as [e|conf]; [discriminate|].
    destruct (_ || _); [discriminate|].
    rewrite mergeDnsConf_spec. discriminate.
Qed.

(** X3 (locked out): once the 5 minutes are over, an instance that has no
    persisted configuration, or whose persisted user name and password are
    both empty, turns down every request, whatever it carries, and writes
    nothing: only a restart opens it again. *)
Theorem no_credentials_after_window_locks_out (w : World) (request : Request) :
  (5 * 60 < wrap64 (clock w - startTime w))%Z ->
  cachedErr w = true
  \/ (config.Username (cached w) = "" /\ config.Password (cached w) = "") ->
  exists why msg w',
    checkAndSave w request = Some (Rejected why msg, w')
    /\ written w' = written w
    /\ runOnceStarted w' = runOnceStarted w.
Proof.
  intros T H. apply Z.ltb_lt in T.
  unfold checkAndSave, mergeCredentials, bootstrapGuard.
  destruct (Body request) as [d|]; [|do 3 eexists; repeat split; reflexivity].
  cbn [clock startTime]. rewrite T.
  destruct (cachedErr w) eqn:F;
    [do 3 eexists; repeat split; reflexivity|].
  destruct H as [H|[HU HP]]; [discriminate|].
  cbn [setLang config.Username config.Password].
  rewrite HU, HP. cbn [String.eqb andb].
  destruct (strings.TrimSpace (Username d) =? "") eqn:EU;
    [|do 3 eexists; repeat split; reflexivity].
  destruct (Password d =? "") eqn:EP;
    [|do 3 eexists; repeat split; reflexivity].
  cbn [negb orb]. unfold assignPassword. rewrite EP.
  apply String.eqb_eq in EU.
  cbn [assignSettings config.Username]. rewrite EU. cbn [String.eqb orb].
  do 3 eexists. repeat split; reflexivity.
Qed.

Lemma bootstrapGuard_with_credentials (w : World) (conf : config.Config)
    (usernameNew passwordNew : string) :
  config.Username conf <> "" \/ config.Password conf <> "" ->
  bootstrapGuard w false conf usernameNew passwordNew = None.
Proof.
  intros H. unfold bootstrapGuard.
  assert ((config.Username conf =? "") && (config.Password conf =? "") = false)
    as -> by (destruct H as [H|H]; apply String.eqb_neq in H; rewrite H;
              [reflexivity|apply andb_false_r]).
  destruct (_ <? _)%Z; reflexivity.
Qed.

(** X4 (credentials keep the door open): an instance with a persisted
    configuration whose user name or password is not empty is never turned
    down by the bootstrap window, however long it has been running. *)
Theorem credentials_never_locked_out (w : World) (request : Request)
    (o : Outcome) (w' : World) :
  cachedErr w = false ->
  config.Username (cached w) <> "" \/ config.Password (cached w) <> "" ->
  checkAndSave w request = Some (o, w') ->
  forall msg, o <> Rejected BootstrapWindowError msg.
Proof.
  intros F H. unfold checkAndSave, mergeCredentials.
  destruct (Body request) as [d|]; [|intros [= <- _] msg; discriminate].
  rewrite F, bootstrapGuard_with_credentials by exact H.
  destruct (assignPassword _ _) as [e|conf];
    [intros [= <- _] msg; discriminate|].
  destruct (_ || _); [intros [= <- _] msg; discriminate|].
  rewrite mergeDnsConf_spec. intros [= <- _] msg; discriminate.
Qed.

(** X5 (password optional on update): a request that decodes with an
    empty password never changes the password hash, whatever the outcome,
    and is never turned down for a weak password. *)
Theorem empty_password_keeps_hash (w : World) (request : Request) (d : data)
    (o : Outcome) (w' : World) :
  Body request = Some d ->
  Password d = "" ->
  checkAndSave w request = Some (o, w') ->
  config.Password (cached w') = config.Password (cached w)
  /\ forall msg, o <> Rejected WeakPasswordError msg.
Proof.
  intros HB HP. unfold checkAndSave, mergeCredentials, assignPassword.
  rewrite HB, HP. cbn [String.eqb].
  destruct (bootstrapGuard _ _ _ _ _) as [key|].
  - intros [= <- <-]. split; [reflexivity|discriminate].
  - match goal with
    | |- context [if ?b then _ else _] => destruct b
    end.
    + intros [= <- <-]. split; [reflexivity|discriminate].
    + rewrite mergeDnsConf_spec. intros [= <- <-].
      split; [reflexivity|discriminate].
Qed.

(** X6 (the password is judged with the submitted flag): a submitted
    password that passes the bootstrap window is checked against the
    configuration that already holds the submitted [NotAllowWanAccess] and
    the trimmed user name, with the persisted hash and domain list.  If the
    check gives an error, that error is the result and the hash stays; if
    not, the request is not turned down for a weak password, and when it
    goes on to the durable write the hash the check gave is the saved
    one. *)
Theorem password_judged_with_submitted_flag (w : World) (request : Request)
    (d : data) (o : Outcome) (w' : World) :
  Body request = Some d ->
  Password d <> "" ->
  checkAndSave w request = Some (o, w') ->
  (forall msg, o <> Rejected BootstrapWindowError msg) ->
  exists conf0,
    config.NotAllowWanAccess conf0 = NotAllowWanAccess d
    /\ config.Username conf0 = strings.TrimSpace (Username d)
    /\ config.Password conf0 = config.Password (cached w)
    /\ config.DnsConf conf0 = config.DnsConf (cached w)
    /\ match snd (CheckPassword conf0 (Password d)) with
       | Some e =>
           o = Rejected WeakPasswordError e
           /\ config.Password (cached w') = config.Password (cached w)
       | None =>
           (forall msg, o <> Rejected WeakPasswordError msg)
           /\ forall err,
                o = Written err ->
                config.Password (cached w')
                = fst (CheckPassword conf0 (Password d))
       end.
Proof.
  intros HB HP. apply String.eqb_neq in HP.
  unfold checkAndSave, mergeCredentials, assignPassword.
  rewrite HB, HP.
  destruct (bootstrapGuard _ _ _ _ _) as [key|].
  - intros [= <- <-] H. exfalso. exact (H _ eq_refl).
  - match goal with
    | |- context [CheckPassword ?c ?p] =>
        destruct (CheckPassword c p) as [h [e|]] eqn:C;
        intros E _; exists c; rewrite C; revert E
    end.
    + intros [= <- <-]. repeat split; reflexivity.
    + match goal with
      | |- context [if ?b then _ else _] => destruct b
      end.
      * intros [= <- <-]. cbn [snd fst].
        repeat split; try reflexivity; discriminate.
      * rewrite mergeDnsConf_spec. intros [= <- <-]. cbn [snd fst].
        repeat split; try reflexivity; discriminate.
Qed.

Lemma entryAt_ext (conf conf' : config.Config) (k : nat) (v : dnsConf4JS) :
  config.DnsConf conf = config.DnsConf conf' ->
  entryAt conf k v = entryAt conf' k v.
Proof. intros H. unfold entryAt. rewrite H. reflexivity. Qed.

(** X7 (what a save stores): when the handler reaches the durable write,
    the configuration written is the one kept in memory, and it holds the
    trimmed submitted user name and webhook settings, the submitted
    [NotAllowWanAccess], the language of the request, and as domain list
    the entries merged from the submitted DTOs that are not the zero value,
    in their order. *)
Theorem save_stores_submitted (w : World) (request : Request)
    (err : option string) (w' : World) :
  checkAndSave w request = Some (Written err, w') ->
  exists d,
    Body request = Some d
    /\ err = SaveConfig (cached w')
    /\ last (written w') (cached w) = cached w'
    /\ config.Username (cached w') = strings.TrimSpace (Username d)
    /\ config.NotAllowWanAccess (cached w') = NotAllowWanAccess d
    /\ config.WebhookURL (cached w') = strings.TrimSpace (WebhookURL d)
    /\ config.WebhookRequestBody (cached w')
       = strings.TrimSpace (WebhookRequestBody d)
    /\ config.WebhookHeaders (cached w')
       = strings.TrimSpace (WebhookHeaders d)
    /\ config.Lang (cached w') = InitLogLang (AcceptLanguage request)
    /\ config.DnsConf (cached w')
       = map (fun kv => entryAt (cached w) (fst kv) (snd kv))
           (filter isEntry (indexed (DnsConf d))).
Proof.
  unfold checkAndSave, mergeCredentials, assignPassword.
  destruct (Body request) as [d|]; [|discriminate].
  destruct (bootstrapGuard _ _ _ _ _) as [key|]; [discriminate|].
  assert (forall conf,
            config.DnsConf conf = config.DnsConf (cached w) ->
            entriesFrom conf 0 (DnsConf d)
            = map (fun kv => entryAt (cached w) (fst kv) (snd kv))
                (filter isEntry (indexed (DnsConf d)))) as Hent.
  { intros conf Hc. rewrite entriesFrom_indexed. apply map_ext.
    intros kv. apply entryAt_ext. exact Hc. }
  destruct (Password d =? "").
  - match goal with
    | |- context [if ?b then _ else _] => destruct b
    end; [discriminate|].
    rewrite mergeDnsConf_spec. intros [= <- <-]. exists d. cbn.
    rewrite last_last, Hent by reflexivity. repeat split; reflexivity.
  - match goal with
    | |- context [CheckPassword ?c ?p] =>
        destruct (CheckPassword c p) as [h [e|]]
    end; [discriminate|].
    match goal with
    | |- context [if ?b then _ else _] => destruct b
    end; [discriminate|].
    rewrite mergeDnsConf_spec. intros [= <- <-]. exists d. cbn.
    rewrite last_last, Hent by reflexivity. repeat split; reflexivity.
Qed.

(** X8 (the placeholder never replaces a secret): for an index that the
    persisted sequence has, when the persisted ID differs from its masked
    form, the merged entry's ID is never that masked form; likewise for the
    Secret. *)
Theorem placeholder_never_replaces_secret
    (conf : config.Config) (dnsConfFromJS : list dnsConf4JS)
    (k : nat) (v : dnsConf4JS) (c : config.DnsConfig) :
  nth_error dnsConfFromJS k = Some v ->
  v <> empty ->
  nth_error (config.DnsConf conf) k = Some c ->
  exists dnsConfArray log e,
    mergeDnsConf conf dnsConfFromJS = Some (dnsConfArray, log)
    /\ nth_error dnsConfArray (slot dnsConfFromJS k) = Some e
    /\ (config.DNS.ID (config.DNS c) <> fst (getHideIDSecret c) ->
        config.DNS.ID (config.DNS e) <> fst (getHideIDSecret c))
    /\ (config.DNS.Secret (config.DNS c) <> snd (getHideIDSecret c) ->
        config.DNS.Secret (config.DNS e) <> snd (getHideIDSecret c)).
Proof.
  intros Hv Hne Hc.
  exists (entriesFrom conf 0 dnsConfFromJS), (warningsFrom conf 0 dnsConfFromJS),
    (entryAt conf k v).
  split; [apply mergeDnsConf_spec|].
  split; [apply (entriesFrom_slot conf dnsConfFromJS 0 k v Hv Hne)|].
  destruct (entryAt_credentials conf k v) as [HI HS]. split.
  - intros Hreal E. destruct HI as [HI|(c' & Hc' & Hm & HI)].
    + rewrite (entryAt_inside conf k v c Hc) in E. cbn zeta in E.
      change (config.DNS.ID (config.DNS (newDnsConfig v)))
        with (strings.TrimSpace (DnsID v)) in E.
      destruct (strings.TrimSpace (DnsID v) =? fst (getHideIDSecret c)) eqn:Q.
      * revert E.
        destruct (_ =? snd (getHideIDSecret c)); cbn; intros E;
          exact (Hreal E).
      * apply String.eqb_neq in Q. apply Q. rewrite <- E.
        destruct (_ =? snd (getHideIDSecret c)); reflexivity.
    + rewrite Hc in Hc'. injection Hc' as <-. rewrite HI in E.
      exact (Hreal E).
  - intros Hreal E. destruct HS as [HS|(c' & Hc' & Hm & HS)].
    + rewrite (entryAt_inside conf k v c Hc) in E. cbn zeta in E.
      change (config.DNS.ID (config.DNS (newDnsConfig v)))
        with (strings.TrimSpace (DnsID v)) in E.
      destruct (strings.TrimSpace (DnsID v) =? fst (getHideIDSecret c));
        cbn [setID config.DNS config.DNS.Secret newDnsConfig] in E;
        destruct (strings.TrimSpace (DnsSecret v) =? snd (getHideIDSecret c))
          eqn:Q; cbn in E;
        try exact (Hreal E);
        apply String.eqb_neq in Q; exact (Q E).
    + rewrite Hc in Hc'. injection Hc' as <-. rewrite HS in E.
      exact (Hreal E).
Qed.

(** X9 (positional matching): the masked form is recognised at its own
    position only.  When the trimmed submitted ID is the masked form of an
    entry, and the persisted entry at the DTO's index has another masked
    form, the merged entry's ID is that submitted masked form itself. *)
Theorem mask_of_other_position_is_stored
    (conf : config.Config) (dnsConfFromJS : list dnsConf4JS)
    (k : nat) (v : dnsConf4JS) (c c' : config.DnsConfig) :
  nth_error dnsConfFromJS k = Some v ->
  v <> empty ->
  nth_error (config.DnsConf conf) k = Some c ->
  strings.TrimSpace (DnsID v) = fst (getHideIDSecret c') ->
  fst (getHideIDSecret c') <> fst (getHideIDSecret c) ->
  exists dnsConfArray log e,
    mergeDnsConf conf dnsConfFromJS = Some (dnsConfArray, log)
    /\ nth_error dnsConfArray (slot dnsConfFromJS k) = Some e
    /\ config.DNS.ID (config.DNS e) = fst (getHideIDSecret c').
Proof.
  intros Hv Hne Hc Hm Hdiff.
  exists (entriesFrom conf 0 dnsConfFromJS), (warningsFrom conf 0 dnsConfFromJS),
    (entryAt conf k v).
  split; [apply mergeDnsConf_spec|].
  split; [apply (entriesFrom_slot conf dnsConfFromJS 0 k v Hv Hne)|].
  destruct (entryAt_credentials conf k v) as [[HI|(c0 & Hc0 & Hm0 & _)] _].
  - rewrite HI. exact Hm.
  - rewrite Hc in Hc0. injection Hc0 as <-. congruence.
Qed.

(** X10 (an empty submission clears the list): when a request passes
    validation and every submitted DTO is the zero value, none at all
    included, the save goes through, the domain list becomes empty and
    nothing is logged. *)
Theorem empty_submission_clears (w : World) (request : Request) (d : data) :
  passesValidation w request = true ->
  Body request = Some d ->
  Forall (fun v => v = empty) (DnsConf d) ->
  exists err w',
    checkAndSave w request = Some (Written err, w')
    /\ config.DnsConf (cached w') = []
    /\ logged w' = logged w.
Proof.
  unfold passesValidation, checkAndSave.
  destruct (mergeCredentials w request) as [[o0 w0]|[[w1 conf] d0]] eqn:E;
    [discriminate|].
  destruct (mergeCredentials_late _ _ _ _ _ E)
    as (HB & _ & _ & _ & _ & HL & _).
  intros HV HB' Hall. rewrite HB in HB'. injection HB' as ->.
  apply negb_true_iff in HV. rewrite HV, mergeDnsConf_spec.
  assert (forall k, entriesFrom conf k (DnsConf d) = []
                    /\ warningsFrom conf k (DnsConf d) = []) as Hnil.
  { induction Hall as [|v l Hv _ IH]; intros k; [split; reflexivity|].
    subst v. cbn [entriesFrom warningsFrom].
    replace (dnsConf4JS_eqb empty empty) with true by reflexivity.
    apply IH. }
  destruct (Hnil 0) as [-> ->].
  do 2 eexists. split; [reflexivity|]. simpl.
  rewrite app_nil_r. split; [reflexivity|exact HL].
Qed.

Lemma entriesFrom_length (conf : config.Config) (l : list dnsConf4JS) :
  forall k,
    List.length (entriesFrom conf k l)
    = List.length (filter (fun v => negb (dnsConf4JS_eqb v empty)) l).
Proof.
  induction l as [|v l IH]; intros k; simpl; [reflexivity|].
  destruct (dnsConf4JS_eqb v empty); simpl; rewrite IH; reflexivity.
Qed.

(** The DTOs for which line 101 logs a warning. *)
Lemma warningsFrom_length (conf : config.Config) (l : list dnsConf4JS) :
  forall k,
    List.length (warningsFrom conf k l)
    = List.length
        (filter (fun v => negb (dnsConf4JS_eqb v empty)
                          && ((Ipv4Domains v =? "") && (Ipv6Domains v =? "")))
           l)
    /\ Forall (fun line => logFormat line = msgNoDomain
                           /\ logLang line = config.Lang conf)
         (warningsFrom conf k l).
Proof.
  induction l as [|v l IH]; intros k; simpl; [split; [reflexivity|constructor]|].
  destruct (IH (S k)) as [IHl IHf].
  destruct (dnsConf4JS_eqb v empty); simpl; [split; assumption|].
  unfold warnNoDomain.
  destruct ((Ipv4Domains v =? "") && (Ipv6Domains v =? "")); simpl.
  - split; [f_equal; exact IHl|].
    constructor; [split; reflexivity|exact IHf].
  - split; assumption.
Qed.

(** X11 (one warning per entry without domain text): the merge logs as
    many lines as there are submitted DTOs that are not the zero value and
    have both domain texts empty, each with the no-domain format in the
    language of the configuration; and it outputs as many entries as there
    are DTOs that are not the zero value. *)
Theorem merge_counts
    (conf : config.Config) (dnsConfFromJS : list dnsConf4JS) :
  exists dnsConfArray log,
    mergeDnsConf conf dnsConfFromJS = Some (dnsConfArray, log)
    /\ List.length dnsConfArray
       = List.length
           (filter (fun v => negb (dnsConf4JS_eqb v empty)) dnsConfFromJS)
    /\ List.length log
       = List.length
           (filter (fun v => negb (dnsConf4JS_eqb v empty)
                             && ((Ipv4Domains v =? "") && (Ipv6Domains v =? "")))
              dnsConfFromJS)
    /\ Forall (fun line => logFormat line = msgNoDomain
                           /\ logLang line = config.Lang conf) log.
Proof.
  do 2 eexists. split; [apply mergeDnsConf_spec|].
  destruct (warningsFrom_length conf dnsConfFromJS 0) as [Hl Hf].
  split; [apply entriesFrom_length|split; assumption].
Qed.

(** X12 (the handler only adds): whatever the outcome, the lines logged
    and the configurations written before the request are still there,
    with at most one write added; the clock and the start time are not
    touched; and a force-recompute flag that was set stays set. *)
Theorem handler_only_adds (w : World) (request : Request)
    (o : Outcome) (w' : World) :
  checkAndSave w request = Some (o, w') ->
  (exists lines, logged w' = logged w ++ lines)
  /\ (exists confs, written w' = written w ++ confs /\ List.length confs <= 1)
  /\ runOnceStarted w <= runOnceStarted w' <= S (runOnceStarted w)
  /\ (ForceCompareGlobal w = true -> ForceCompareGlobal w' = true)
  /\ startTime w' = startTime w
  /\ clock w' = clock w.
Proof.
  unfold checkAndSave, mergeCredentials.
  assert (forall w0 : World,
            logged w0 = logged w -> written w0 = written w ->
            runOnceStarted w0 = runOnceStarted w ->
            ForceCompareGlobal w0 = ForceCompareGlobal w ->
            startTime w0 = startTime w -> clock w0 = clock w ->
            (exists lines, logged w0 = logged w ++ lines)
            /\ (exists confs,
                  written w0 = written w ++ confs /\ List.length confs <= 1)
            /\ runOnceStarted w <= runOnceStarted w0 <= S (runOnceStarted w)
            /\ (ForceCompareGlobal w = true -> ForceCompareGlobal w0 = true)
            /\ startTime w0 = startTime w
            /\ clock w0 = clock w) as Hsame.
  { intros w0 Hl Hw Hr Hf Hs Hc. rewrite Hl, Hw, Hr, Hf, Hs, Hc.
    split; [exists []; rewrite app_nil_r; reflexivity|].
    split; [exists []; rewrite app_nil_r; simpl; split; [reflexivity|lia]|].
    repeat split; auto; lia. }
  destruct (Body request) as [d|];
    [|intros [= _ <-]; apply Hsame; reflexivity].
  destruct (bootstrapGuard _ _ _ _ _) as [key|];
    [intros [= _ <-]; apply Hsame; reflexivity|].
  destruct (assignPassword _ _) as [e|conf];
    [intros [= _ <-]; apply Hsame; reflexivity|].
  destruct (_ || _); [intros [= _ <-]; apply Hsame; reflexivity|].
  rewrite mergeDnsConf_spec. intros [= _ <-]. simpl.
  split; [eauto|]. split; [eexists; split; [reflexivity|simpl; lia]|].
  repeat split; auto; lia.
Qed.

(** The domain list a save leaves, from the request and the persisted
    list. *)
Lemma saved_entries_from (w : World) (request : Request)
    (err : option string) (w' : World) :
  checkAndSave w request = Some (Written err, w') ->
  exists conf d,
    Body request = Some d
    /\ config.DnsConf conf = config.DnsConf (cached w)
    /\ config.DnsConf (cached w') = entriesFrom conf 0 (DnsConf d).
Proof.
  unfold checkAndSave.
  destruct (mergeCredentials w request) as [[o0 w0]|[[w1 conf] d]] eqn:E.
  - intros [= -> _].
    destruct (mergeCredentials_early _ _ _ _ E) as [(why & msg & H & _) _].
    discriminate.
  - destruct (mergeCredentials_late _ _ _ _ _ E)
      as (HB & _ & _ & _ & _ & _ & HD & _).
    destruct (_ || _); [discriminate|].
    rewrite mergeDnsConf_spec. intros [= _ <-]. simpl. eauto.
Qed.

End Handler.

(** *** [strings.TrimSpace] is idempotent *)

Section Trim.

Import strings.

Lemma cutPrefix_app (p s r : list ascii) :
  cutPrefix p s = Some r <-> s = p ++ r.
Proof.
  revert s. induction p as [|a p IH]; intros s; simpl.
  - split; [intros [= ->]|intros ->]; reflexivity.
  - destruct s as [|b s]; [split; discriminate|].
    unfold byteEq. destruct (Ascii.eqb_spec a b) as [->|Hab].
    + rewrite IH. split; [intros ->; reflexivity|intros [= ->]; reflexivity].
    + split; [discriminate|intros [= ? _]; congruence].
Qed.

Lemma cutRune_Some (runes : list (list ascii)) (s r : list ascii) :
  cutRune runes s = Some r -> exists p, In p runes /\ s = p ++ r.
Proof.
  induction runes as [|q runes IH]; simpl; [discriminate|].
  destruct (cutPrefix q s) as [r'|] eqn:E.
  - intros [= ->]. apply cutPrefix_app in E. eauto.
  - intros H. destruct (IH H) as (p & Hp & ->). eauto.
Qed.

Lemma cutRune_None (runes : list (list ascii)) (s : list ascii) :
  cutRune runes s = None <-> forall p, In p runes -> cutPrefix p s = None.
Proof.
  induction runes as [|q runes IH]; simpl.
  - split; [intros _ p []|reflexivity].
  - destruct (cutPrefix q s) as [r'|] eqn:E.
    + split; [discriminate|]. intros H. rewrite (H q) in E by auto.
      discriminate.
    + rewrite IH. split.
      * intros H p [<-|Hp]; auto.
      * intros H p Hp. apply H. auto.
Qed.

(** What does not start with a rune has no prefix that does. *)
Lemma cutRune_None_prefix (runes : list (list ascii)) (t u : list ascii) :
  cutRune runes (t ++ u) = None -> cutRune runes t = None.
Proof.
  intros H. destruct (cutRune runes t) as [r|] eqn:E; [|reflexivity].
  destruct (cutRune_Some _ _ _ E) as (p & Hp & ->).
  rewrite cutRune_None in H. specialize (H p Hp).
  assert (cutPrefix p ((p ++ r) ++ u) = Some (r ++ u)) as H'
    by (apply cutPrefix_app; rewrite app_assoc; reflexivity).
  congruence.
Qed.

Lemma trimLeftN_suffix (runes : list (list ascii)) (n : nat) :
  forall s, exists pre, s = pre ++ trimLeftN runes n s.
Proof.
  induction n as [|n IH]; intros s; simpl.
  - exists []. reflexivity.
  - destruct (cutRune runes s) as [r|] eqn:E.
    + destruct (cutRune_Some _ _ _ E) as (p & _ & ->).
      destruct (IH r) as [pre Hpre].
      exists (p ++ pre). rewrite <- app_assoc, <- Hpre. reflexivity.
    + exists []. reflexivity.
Qed.

Lemma trimLeftN_done (runes : list (list ascii)) :
  Forall (fun p => p <> []) runes ->
  forall n s, List.length s <= n -> cutRune runes (trimLeftN runes n s) = None.
Proof.
  intros Hne. induction n as [|n IH]; intros s Hs; simpl.
  - destruct s; [|simpl in Hs; lia].
    apply cutRune_None. intros p Hp.
    rewrite Forall_forall in Hne. specialize (Hne p Hp).
    destruct p; [contradiction|reflexivity].
  - destruct (cutRune runes s) as [r|] eqn:E; [|exact E].
    apply IH. destruct (cutRune_Some _ _ _ E) as (p & Hp & ->).
    rewrite Forall_forall in Hne. specialize (Hne p Hp).
    rewrite length_app in Hs. destruct p; [contradiction|simpl in Hs; lia].
Qed.

Lemma trimLeft_done (runes : list (list ascii)) (s : list ascii) :
  Forall (fun p => p <> []) runes ->
  cutRune runes (trimLeft runes s) = None.
Proof. intros H. apply trimLeftN_done; [assumption|apply Nat.le_refl]. Qed.

Lemma trimLeft_fixed (runes : list (list ascii)) (s : list ascii) :
  cutRune runes s = None -> trimLeft runes s = s.
Proof.
  intros H. unfold trimLeft. destruct (List.length s); simpl; [reflexivity|].
  rewrite H. reflexivity.
Qed.

Lemma spaceRunes_nonempty : Forall (fun p : list ascii => p <> []) spaceRunes.
Proof. repeat constructor; discriminate. Qed.

Lemma spaceRunes_rev_nonempty :
  Forall (fun p : list ascii => p <> []) (map (@rev ascii) spaceRunes).
Proof. repeat constructor; discriminate. Qed.

Lemma trimBytes_idempotent (s : list ascii) :
  trimBytes (trimBytes s) = trimBytes s.
Proof.
  unfold trimBytes, trimRight.
  set (a := trimLeft spaceRunes s).
  set (b := trimLeft (map (@rev ascii) spaceRunes) (rev a)).
  assert (cutRune spaceRunes (rev b) = None) as Hb.
  { destruct (trimLeftN_suffix (map (@rev ascii) spaceRunes)
                (List.length (rev a)) (rev a)) as [pre Hpre].
    fold (trimLeft (map (@rev ascii) spaceRunes) (rev a)) in Hpre.
    fold b in Hpre.
    apply (cutRune_None_prefix _ _ (rev pre)).
    rewrite <- rev_app_distr, <- Hpre, rev_involutive.
    apply trimLeft_done, spaceRunes_nonempty. }
  rewrite (trimLeft_fixed _ _ Hb), rev_involutive.
  rewrite (trimLeft_fixed _ b); [reflexivity|].
  apply trimLeft_done, spaceRunes_rev_nonempty.
Qed.

Lemma TrimSpace_idempotent (s : string) :
  TrimSpace (TrimSpace s) = TrimSpace s.
Proof.
  unfold TrimSpace, ofBytes, bytes.
  rewrite list_ascii_of_string_of_list_ascii, trimBytes_idempotent.
  reflexivity.
Qed.

(** Trimmed texts are the fixed points of the trimming. *)
Lemma trimBytes_trimmed (s : list ascii) :
  cutRune spaceRunes (trimBytes s) = None
  /\ cutRune (map (@rev ascii) spaceRunes) (rev (trimBytes s)) = None.
Proof.
  unfold trimBytes, trimRight.
  set (a := trimLeft spaceRunes s).
  set (b := trimLeft (map (@rev ascii) spaceRunes) (rev a)).
  split.
  - destruct (trimLeftN_suffix (map (@rev ascii) spaceRunes)
                (List.length (rev a)) (rev a)) as [pre Hpre].
    fold (trimLeft (map (@rev ascii) spaceRunes) (rev a)) in Hpre.
    fold b in Hpre.
    apply (cutRune_None_prefix _ _ (rev pre)).
    rewrite <- rev_app_distr, <- Hpre, rev_involutive.
    apply trimLeft_done, spaceRunes_nonempty.
  - rewrite rev_involutive. apply trimLeft_done, spaceRunes_rev_nonempty.
Qed.

Lemma trimBytes_fixed (t : list ascii) :
  cutRune spaceRunes t = None ->
  cutRune (map (@rev ascii) spaceRunes) (rev t) = None ->
  trimBytes t = t.
Proof.
  intros H1 H2. unfold trimBytes, trimRight.
  rewrite (trimLeft_fixed _ _ H1), (trimLeft_fixed _ _ H2).
  apply rev_involutive.
Qed.

(** *** The mask of a trimmed text is trimmed *)

Lemma bytes_mask (n : nat) (s : string) :
  bytes (mask n s) = maskBytes n (bytes s).
Proof.
  revert n. induction s as [|c s IH]; intros n; [reflexivity|].
  destruct n; simpl; f_equal; apply IH.
Qed.

Lemma cutPrefix_mask (p : list ascii) :
  ~ In "*"%char p ->
  forall t n, cutPrefix p t = None -> cutPrefix p (maskBytes n t) = None.
Proof.
  induction p as [|a p IH]; intros Hp t n; simpl; [discriminate|].
  destruct t as [|b t]; [reflexivity|].
  unfold byteEq.
  destruct n; simpl; unfold byteEq.
  - intros _. destruct (Ascii.eqb_spec a "*"%char) as [->|]; [|reflexivity].
    exfalso. apply Hp. left. reflexivity.
  - destruct (Ascii.eqb a b); [|reflexivity].
    apply IH. intros H. apply Hp. right. exact H.
Qed.

Lemma maskBytes_short (n : nat) (t : list ascii) :
  List.length t <= n -> maskBytes n t = t.
Proof.
  revert n. induction t as [|c t IH]; intros n H; [reflexivity|].
  destruct n; simpl in H |- *; [lia|].
  f_equal. apply IH. lia.
Qed.

Lemma maskBytes_snoc (t : list ascii) (x : ascii) :
  forall n,
    maskBytes n (t ++ [x])
    = maskBytes n t ++ [if (List.length t <? n)%nat then x else "*"%char].
Proof.
  induction t as [|c t IH]; intros n; simpl.
  - destruct n; reflexivity.
  - destruct n; simpl; rewrite IH; reflexivity.
Qed.

Lemma rev_maskBytes_long (n : nat) (t : list ascii) :
  n < List.length t -> exists m, rev (maskBytes n t) = "*"%char :: m.
Proof.
  destruct t as [|c t] using rev_ind; simpl; [lia|].
  rewrite length_app. simpl. intros H.
  rewrite maskBytes_snoc, rev_app_distr. simpl.
  assert ((List.length t <? n)%nat = false) as -> by (apply Nat.ltb_ge; lia).
  eauto.
Qed.

Lemma spaceRunes_no_star :
  forall p, In p spaceRunes -> ~ In "*"%char p.
Proof.
  assert (forallb (fun p => negb (existsb (Ascii.eqb "*"%char) p)) spaceRunes
          = true) as H by reflexivity.
  rewrite forallb_forall in H. intros p Hp Hin.
  specialize (H p Hp). apply negb_true_iff in H.
  assert (existsb (Ascii.eqb "*"%char) p = true) as H'
    by (apply existsb_exists; exists "*"%char; split;
        [exact Hin|apply Ascii.eqb_refl]).
  congruence.
Qed.

Lemma spaceRunes_rev_no_star_head :
  forall p, In p (map (@rev ascii) spaceRunes) ->
  forall m, cutPrefix p ("*"%char :: m) = None.
Proof.
  assert (forallb (fun p => match p with
                            | [] => false
                            | a :: _ => negb (Ascii.eqb a "*"%char)
                            end) (map (@rev ascii) spaceRunes) = true) as H
    by reflexivity.
  rewrite forallb_forall in H. intros p Hp m. specialize (H p Hp).
  destruct p as [|a p]; [discriminate|].
  apply negb_true_iff in H. simpl. unfold byteEq. rewrite H. reflexivity.
Qed.

Lemma maskBytes_trimmed (n : nat) (t : list ascii) :
  cutRune spaceRunes t = None ->
  cutRune (map (@rev ascii) spaceRunes) (rev t) = None ->
  cutRune spaceRunes (maskBytes n t) = None
  /\ cutRune (map (@rev ascii) spaceRunes) (rev (maskBytes n t)) = None.
Proof.
  intros H1 H2. split.
  - apply cutRune_None. intros p Hp.
    apply cutPrefix_mask; [exact (spaceRunes_no_star p Hp)|].
    rewrite cutRune_None in H1. exact (H1 p Hp).
  - destruct (Nat.le_gt_cases (List.length t) n) as [Hs|Hl].
    + rewrite (maskBytes_short n t Hs). exact H2.
    + destruct (rev_maskBytes_long n t Hl) as [m ->].
      apply cutRune_None. intros p Hp.
      exact (spaceRunes_rev_no_star_head p Hp m).
Qed.

Lemma TrimSpace_mask (n : nat) (s : string) :
  TrimSpace s = s -> TrimSpace (mask n s) = mask n s.
Proof.
  intros H.
  assert (trimBytes (bytes s) = bytes s) as Hb.
  { apply (f_equal bytes) in H. unfold TrimSpace, ofBytes, bytes in H.
    rewrite list_ascii_of_string_of_list_ascii in H. exact H. }
  destruct (trimBytes_trimmed (bytes s)) as [H1 H2]. rewrite Hb in H1, H2.
  destruct (maskBytes_trimmed n (bytes s) H1 H2) as [M1 M2].
  unfold TrimSpace. rewrite bytes_mask, (trimBytes_fixed _ M1 M2).
  rewrite <- bytes_mask. unfold ofBytes, bytes.
  apply string_of_list_ascii_of_string.
Qed.

End Trim.

(** *** Splitting and joining lines *)

Lemma splitLF_cons (c : ascii) (s : string) :
  splitLF (String c s)
  = if Ascii.eqb c (ascii_of_N 10) then EmptyString :: splitLF s
    else match splitLF s with
         | line :: lines => String c line :: lines
         | [] => [String c EmptyString]
         end.
Proof. reflexivity. Qed.

Lemma splitLF_nonempty (s : string) : splitLF s <> [].
Proof.
  destruct s as [|c s]; [discriminate|].
  rewrite splitLF_cons.
  destruct (Ascii.eqb c (ascii_of_N 10)); [discriminate|].
  destruct (splitLF s); discriminate.
Qed.

(** A line of the split text holds no line feed: it splits into itself. *)
Lemma splitLF_line (t : string) :
  forall a, In a (splitLF t) -> splitLF a = [a].
Proof.
  induction t as [|c t IH]; intros a Ha.
  - destruct Ha as [<-|[]]. reflexivity.
  - rewrite splitLF_cons in Ha.
    destruct (Ascii.eqb c (ascii_of_N 10)) eqn:Ec.
    + destruct Ha as [<-|Ha]; [reflexivity|auto].
    + destruct (splitLF t) as [|line lines] eqn:Et.
      * destruct Ha as [<-|[]]. rewrite splitLF_cons, Ec. reflexivity.
      * destruct Ha as [<-|Ha]; [|apply IH; right; exact Ha].
        rewrite splitLF_cons, Ec, (IH line) by (left; reflexivity).
        reflexivity.
Qed.

Lemma splitLF_app_LF (a r : string) :
  splitLF a = [a] -> splitLF (a ++ LF ++ r)%string = a :: splitLF r.
Proof.
  induction a as [|c a IH]; intros Ha; [reflexivity|].
  change (String c a ++ LF ++ r)%string with (String c (a ++ LF ++ r)).
  rewrite splitLF_cons in Ha |- *.
  destruct (Ascii.eqb c (ascii_of_N 10)); [discriminate|].
  destruct (splitLF a) as [|line lines] eqn:Ea.
  - exfalso. exact (splitLF_nonempty a Ea).
  - injection Ha as Hline Hlines. subst line lines.
    rewrite IH by reflexivity. reflexivity.
Qed.

Lemma SplitLinesSpec_Join (l : list string) :
  Forall (fun a => splitLF a = [a] /\ a <> "") l ->
  SplitLinesSpec (strings.Join l LF) = l.
Proof.
  induction l as [|a l IH]; intros H; [reflexivity|].
  inversion H as [|? ? [Ha Hne] Hl]; subst.
  apply String.eqb_neq in Hne.
  destruct l as [|b l].
  - unfold SplitLinesSpec. simpl. rewrite Ha. simpl.
    unfold nonBlank. rewrite Hne. reflexivity.
  - change (strings.Join (a :: b :: l) LF)
      with (a ++ LF ++ strings.Join (b :: l) LF)%string.
    unfold SplitLinesSpec. rewrite (splitLF_app_LF _ _ Ha). simpl.
    unfold nonBlank at 1. rewrite Hne. simpl. f_equal.
    apply IH. assumption.
Qed.

Lemma SplitLinesSpec_round_trip (t : string) :
  SplitLinesSpec (strings.Join (SplitLinesSpec t) LF) = SplitLinesSpec t.
Proof.
  apply SplitLinesSpec_Join. apply Forall_forall. intros a Ha.
  unfold SplitLinesSpec in Ha. apply filter_In in Ha. destruct Ha as [Ha Hb].
  split; [exact (splitLF_line t a Ha)|].
  unfold nonBlank in Hb. apply negb_true_iff in Hb.
  apply String.eqb_neq. exact Hb.
Qed.

(** *** Submitting the masked form again *)

Section Resubmit.

Variable getHideIDSecret : config.DnsConfig -> string * string.
Variable CheckPassword : config.Config -> string -> string * option string.
Variable SaveConfig : config.Config -> option string.
Variable InitLogLang : string -> string.
Variable LogStr : string -> string -> string.
Variable Ordinal : nat -> string -> string.

(** What the merge builds survives the way through the form: the trimmed
    fields are trimmed already, the domain lists join and split into
    themselves. *)
Lemma merged_round_trips (conf : config.Config) (l : list dnsConf4JS) :
  forall k : nat,
    Forall (fun c =>
              config.Ipv4 (newDnsConfig SplitLinesSpec
                             (maskedDTO getHideIDSecret c)) = config.Ipv4 c
              /\ config.Ipv6 (newDnsConfig SplitLinesSpec
                                (maskedDTO getHideIDSecret c)) = config.Ipv6 c)
           (entriesFrom getHideIDSecret SplitLinesSpec conf k l).
Proof.
  induction l as [|v l IH]; intros k; simpl; [constructor|].
  destruct (dnsConf4JS_eqb v empty); [apply IH|].
  constructor; [|apply IH].
  destruct (entryAt_rest getHideIDSecret SplitLinesSpec conf k v)
    as (H4 & H6 & _).
  set (e := entryAt getHideIDSecret SplitLinesSpec conf k v) in *.
  unfold maskedDTO. destruct (getHideIDSecret e) as [idHide secretHide].
  unfold newDnsConfig.
  cbn [Ipv4Enable Ipv4GetType Ipv4Url Ipv4NetInterface Ipv4Cmd Ipv4Domains
       Ipv6Enable Ipv6GetType Ipv6Url Ipv6NetInterface Ipv6Cmd Ipv6Reg
       Ipv6Domains config.Ipv4 config.Ipv6].
  rewrite H4, H6. unfold newDnsConfig.
  cbn [config.Ipv4 config.Ipv6
       config.Ipv4.Enable config.Ipv4.GetType config.Ipv4.URL
       config.Ipv4.NetInterface config.Ipv4.Cmd config.Ipv4.Domains
       config.Ipv6.Enable config.Ipv6.GetType config.Ipv6.URL
       config.Ipv6.NetInterface config.Ipv6.Cmd config.Ipv6.Ipv6Reg
       config.Ipv6.Domains].
  rewrite !TrimSpace_idempotent, !SplitLinesSpec_round_trip.
  split; reflexivity.
Qed.

(** Whatever the mask: the masked form of a saved list comes back as it
    is when no masked entry is the zero value and the masks are trimmed. *)
Lemma resubmission_any_mask
    (w : World) (request : Request) (err : option string) (w' : World)
    (w2 : World) (request2 : Request) (d2 : data) :
  checkAndSave getHideIDSecret SplitLinesSpec CheckPassword SaveConfig
    InitLogLang LogStr Ordinal w request = Some (Written err, w') ->
  Forall (fun c => maskedDTO getHideIDSecret c <> empty)
    (config.DnsConf (cached w')) ->
  Forall (fun c =>
            strings.TrimSpace (fst (getHideIDSecret c))
            = fst (getHideIDSecret c)
            /\ strings.TrimSpace (snd (getHideIDSecret c))
               = snd (getHideIDSecret c))
    (config.DnsConf (cached w')) ->
  config.DnsConf (cached w2) = config.DnsConf (cached w') ->
  Body request2 = Some d2 ->
  DnsConf d2 = map (maskedDTO getHideIDSecret) (config.DnsConf (cached w')) ->
  passesValidation CheckPassword InitLogLang LogStr w2 request2 = true ->
  exists err2 w'',
    checkAndSave getHideIDSecret SplitLinesSpec CheckPassword SaveConfig
      InitLogLang LogStr Ordinal w2 request2 = Some (Written err2, w'')
    /\ config.DnsConf (cached w'') = config.DnsConf (cached w').
Proof.
  intros Hsave Hne Htrim Hsame HB2 Hd2 Hvalid.
  assert (Forall (fun c =>
            config.Ipv4 (newDnsConfig SplitLinesSpec
                           (maskedDTO getHideIDSecret c)) = config.Ipv4 c
            /\ config.Ipv6 (newDnsConfig SplitLinesSpec
                              (maskedDTO getHideIDSecret c)) = config.Ipv6 c)
            (config.DnsConf (cached w'))) as Hround.
  { destruct (saved_entries _ _ _ _ _ _ _ _ _ _ _ Hsave) as (conf & l & ->).
    apply merged_round_trips. }
  revert Hvalid. unfold passesValidation, checkAndSave.
  destruct (mergeCredentials _ _ _ _ _) as [[o0 w0]|[[w1 conf] d]] eqn:E;
    [discriminate|].
  destruct (mergeCredentials_late _ _ _ _ _ _ _ _ E)
    as (HB & _ & _ & _ & _ & _ & HD & _).
  rewrite HB2 in HB. injection HB as <-.
  intros Hvalid. apply negb_true_iff in Hvalid.
  rewrite Hvalid, mergeDnsConf_spec.
  do 2 eexists. split; [reflexivity|]. simpl.
  rewrite Hd2. rewrite Hsame in HD.
  apply (resubmit_entries getHideIDSecret SplitLinesSpec conf
           (config.DnsConf (cached w')) []); [exact HD|].
  apply Forall_forall. intros c Hc.
  rewrite Forall_forall in Hne, Htrim, Hround.
  destruct (Htrim c Hc) as [Hi Hs]. destruct (Hround c Hc) as [H4 H6].
  repeat split; auto.
Qed.

End Resubmit.

Section ResubmitMasked.

Variable CheckPassword : config.Config -> string -> string * option string.
Variable SaveConfig : config.Config -> option string.
Variable InitLogLang : string -> string.
Variable LogStr : string -> string -> string.
Variable Ordinal : nat -> string -> string.

(** The masks of merged entries are trimmed: the ID and the Secret are
    trimmed values, or persisted ones whose mask was submitted trimmed. *)
Lemma merged_masks_trimmed (n : nat) (conf : config.Config)
    (l : list dnsConf4JS) :
  forall k : nat,
    Forall (fun c =>
              strings.TrimSpace (fst (getHideIDSecretN n c))
              = fst (getHideIDSecretN n c)
              /\ strings.TrimSpace (snd (getHideIDSecretN n c))
                 = snd (getHideIDSecretN n c))
           (entriesFrom (getHideIDSecretN n) SplitLinesSpec conf k l).
Proof.
  induction l as [|v l IH]; intros k; simpl; [constructor|].
  destruct (dnsConf4JS_eqb v empty); [apply IH|].
  constructor; [|apply IH].
  destruct (entryAt_credentials (getHideIDSecretN n) SplitLinesSpec conf k v)
    as [HI HS].
  set (e := entryAt (getHideIDSecretN n) SplitLinesSpec conf k v) in *.
  unfold getHideIDSecretN in HI, HS |- *. cbn [fst snd] in HI, HS |- *.
  split.
  - destruct HI as [->|(c & _ & Hm & ->)].
    + apply TrimSpace_mask, TrimSpace_idempotent.
    + rewrite <- Hm. apply TrimSpace_idempotent.
  - destruct HS as [->|(c & _ & Hm & ->)].
    + apply TrimSpace_mask, TrimSpace_idempotent.
    + rewrite <- Hm. apply TrimSpace_idempotent.
Qed.

(** C9, amended (submitting the masked form again): take the domain list
    that a successful save left, such that no entry's masked form is the
    all-zero DTO.  A request that submits the masked form of that list (the
    ID and the Secret masked, every other field echoed back) and passes
    validation is saved with a domain list identical to the one it started
    from.  The mask keeps the first [n] bytes, for any [n]. *)
Theorem resubmission_idempotent (n : nat)
    (w : World) (request : Request) (w' : World)
    (w2 : World) (request2 : Request) (d2 : data) :
  checkAndSave (getHideIDSecretN n) SplitLinesSpec CheckPassword SaveConfig
    InitLogLang LogStr Ordinal w request = Some (Written None, w') ->
  Forall (fun c => maskedDTO (getHideIDSecretN n) c <> empty)
    (config.DnsConf (cached w')) ->
  config.DnsConf (cached w2) = config.DnsConf (cached w') ->
  Body request2 = Some d2 ->
  DnsConf d2
  = map (maskedDTO (getHideIDSecretN n)) (config.DnsConf (cached w')) ->
  passesValidation CheckPassword InitLogLang LogStr w2 request2 = true ->
  exists err2 w'',
    checkAndSave (getHideIDSecretN n) SplitLinesSpec CheckPassword SaveConfig
      InitLogLang LogStr Ordinal w2 request2 = Some (Written err2, w'')
    /\ config.DnsConf (cached w'') = config.DnsConf (cached w').
Proof.
  intros Hsave Hne Hsame HB2 Hd2 Hvalid.
  apply (resubmission_any_mask (getHideIDSecretN n) CheckPassword SaveConfig
           InitLogLang LogStr Ordinal w request None w' w2 request2 d2);
    try assumption.
  destruct (saved_entries _ _ _ _ _ _ _ _ _ _ _ Hsave) as (conf & l & ->).
  apply merged_masks_trimmed.
Qed.

End ResubmitMasked.

(** *** What is saved is trimmed *)

Section SavedEntries.

Variable getHideIDSecret : config.DnsConfig -> string * string.
Variable SplitLines : string -> list string.
Variable CheckPassword : config.Config -> string -> string * option string.
Variable SaveConfig : config.Config -> option string.
Variable InitLogLang : string -> string.
Variable LogStr : string -> string -> string.
Variable Ordinal : nat -> string -> string.

Lemma entries_trimmed (conf : config.Config) (l : list dnsConf4JS) :
  forall k : nat,
    Forall (fun e =>
              strings.TrimSpace (config.Ipv4.URL (config.Ipv4 e))
              = config.Ipv4.URL (config.Ipv4 e)
              /\ strings.TrimSpace (config.Ipv4.Cmd (config.Ipv4 e))
                 = config.Ipv4.Cmd (config.Ipv4 e)
              /\ strings.TrimSpace (config.Ipv6.URL (config.Ipv6 e))
                 = config.Ipv6.URL (config.Ipv6 e)
              /\ strings.TrimSpace (config.Ipv6.Cmd (config.Ipv6 e))
                 = config.Ipv6.Cmd (config.Ipv6 e)
              /\ strings.TrimSpace (config.Ipv6.Ipv6Reg (config.Ipv6 e))
                 = config.Ipv6.Ipv6Reg (config.Ipv6 e)
              /\ (strings.TrimSpace (config.DNS.ID (config.DNS e))
                  = config.DNS.ID (config.DNS e)
                  \/ exists c,
                       In c (config.DnsConf conf)
                       /\ config.DNS.ID (config.DNS e)
                          = config.DNS.ID (config.DNS c))
              /\ (strings.TrimSpace (config.DNS.Secret (config.DNS e))
                  = config.DNS.Secret (config.DNS e)
                  \/ exists c,
                       In c (config.DnsConf conf)
                       /\ config.DNS.Secret (config.DNS e)
                          = config.DNS.Secret (config.DNS c)))
           (entriesFrom getHideIDSecret SplitLines conf k l).
Proof.
  induction l as [|v l IH]; intros k; simpl; [constructor|].
  destruct (dnsConf4JS_eqb v empty); [apply IH|].
  constructor; [|apply IH].
  destruct (entryAt_rest getHideIDSecret SplitLines conf k v)
    as (H4 & H6 & _).
  destruct (entryAt_credentials getHideIDSecret SplitLines conf k v)
    as [HI HS].
  rewrite H4, H6. unfold newDnsConfig.
  cbn [config.Ipv4 config.Ipv6 config.Ipv4.URL config.Ipv4.Cmd
       config.Ipv6.URL config.Ipv6.Cmd config.Ipv6.Ipv6Reg].
  rewrite !TrimSpace_idempotent.
  repeat (split; [reflexivity|]). split.
  - destruct HI as [->|(c & Hc & _ & ->)].
    + left. apply TrimSpace_idempotent.
    + right. exists c. split; [exact (nth_error_In _ _ Hc)|reflexivity].
  - destruct HS as [->|(c & Hc & _ & ->)].
    + left. apply TrimSpace_idempotent.
    + right. exists c. split; [exact (nth_error_In _ _ Hc)|reflexivity].
Qed.

(** X13 (what is saved is trimmed): in every entry of a saved domain list
    the IPv4 and IPv6 URL and command and the IPv6 regular expression carry
    no surrounding white space; the ID and the Secret carry none either,
    unless they are the ID or the Secret of an entry persisted before. *)
Theorem saved_entries_are_trimmed (w : World) (request : Request)
    (err : option string) (w' : World) :
  checkAndSave getHideIDSecret SplitLines CheckPassword SaveConfig
    InitLogLang LogStr Ordinal w request = Some (Written err, w') ->
  Forall (fun e =>
            strings.TrimSpace (config.Ipv4.URL (config.Ipv4 e))
            = config.Ipv4.URL (config.Ipv4 e)
            /\ strings.TrimSpace (config.Ipv4.Cmd (config.Ipv4 e))
               = config.Ipv4.Cmd (config.Ipv4 e)
            /\ strings.TrimSpace (config.Ipv6.URL (config.Ipv6 e))
               = config.Ipv6.URL (config.Ipv6 e)
            /\ strings.TrimSpace (config.Ipv6.Cmd (config.Ipv6 e))
               = config.Ipv6.Cmd (config.Ipv6 e)
            /\ strings.TrimSpace (config.Ipv6.Ipv6Reg (config.Ipv6 e))
               = config.Ipv6.Ipv6Reg (config.Ipv6 e)
            /\ (strings.TrimSpace (config.DNS.ID (config.DNS e))
                = config.DNS.ID (config.DNS e)
                \/ exists c,
                     In c (config.DnsConf (cached w))
                     /\ config.DNS.ID (config.DNS e)
                        = config.DNS.ID (config.DNS c))
            /\ (strings.TrimSpace (config.DNS.Secret (config.DNS e))
                = config.DNS.Secret (config.DNS e)
                \/ exists c,
                     In c (config.DnsConf (cached w))
                     /\ config.DNS.Secret (config.DNS e)
                        = config.DNS.Secret (config.DNS c)))
         (config.DnsConf (cached w')).
Proof.
  intros E.
  destruct (saved_entries_from _ _ _ _ _ _ _ _ _ _ _ E)
    as (conf & d & _ & HD & ->).
  rewrite <- HD. apply entries_trimmed.
Qed.

End SavedEntries.

(** ** The claims on the sample states *)

Local Notation "'checkAndSave_sample'" :=
  (checkAndSave getHideIDSecretSpec SplitLinesSpec CheckPasswordSpec
     SaveConfigOk InitLogLangSpec LogStrSpec OrdinalSpec).

Local Notation "'mergeDnsConf_sample'" :=
  (mergeDnsConf getHideIDSecretSpec SplitLinesSpec OrdinalSpec).

(** The scenario of §8: ["ABCDEF"] masks to ["AB****"]; submitted in that
    form the ID stays ["ABCDEF"], and ["ZZZZZZ"] replaces it. *)
Example scenario_masked_id :
  fst (getHideIDSecretSpec
         (entry "alidns" "ABCDEF" "s3cr3t-value" ["a.example.com"]))
  = "AB****"
  /\ (exists log e,
        mergeDnsConf_sample persisted
          [dto "alidns" "AB****" "s3**********" "a.example.com"]
        = Some ([e], log)
        /\ config.DNS.ID (config.DNS e) = "ABCDEF"
        /\ config.DNS.Secret (config.DNS e) = "s3cr3t-value")
  /\ (exists log e,
        mergeDnsConf_sample persisted
          [dto "alidns" "ZZZZZZ" "s3**********" "a.example.com"]
        = Some ([e], log)
        /\ config.DNS.ID (config.DNS e) = "ZZZZZZ").
Proof.
  split; [reflexivity|].
  split; do 2 eexists; repeat split; reflexivity.
Qed.

(** C1 on the sample: the masked ID keeps the persisted one, the fresh
    Secret replaces the persisted one. *)
Lemma secret_preservation_witness :
  exists dnsConfArray log e,
    mergeDnsConf_sample persisted
      [dto "alidns" "AB****" "fresh" "a.example.com"]
    = Some (dnsConfArray, log)
    /\ nth_error dnsConfArray
         (slot [dto "alidns" "AB****" "fresh" "a.example.com"] 0) = Some e
    /\ config.DNS.ID (config.DNS e) = "ABCDEF"
    /\ config.DNS.Secret (config.DNS e) = "fresh".
Proof.
  apply (secret_preservation getHideIDSecretSpec SplitLinesSpec OrdinalSpec
           persisted [dto "alidns" "AB****" "fresh" "a.example.com"] 0
           (dto "alidns" "AB****" "fresh" "a.example.com")
           (entry "alidns" "ABCDEF" "s3cr3t-value" ["a.example.com"]));
    [reflexivity|discriminate|reflexivity].
Defined.

(** C2 as stated fails: five minutes are over, the persisted credentials
    are empty and the submitted user name, two blanks, is not empty; yet
    the message is the missing-credentials one, not the
    credentials-never-set one. *)
Lemma bootstrap_blank_username_counterexample :
  (5 * 60 < clock (worldAt noCredentials false 360)
            - startTime (worldAt noCredentials false 360))%Z
  /\ cachedErr (worldAt noCredentials false 360) = false
  /\ config.Username (cached (worldAt noCredentials false 360)) = ""
  /\ config.Password (cached (worldAt noCredentials false 360)) = ""
  /\ "  " <> ""
  /\ (exists w',
        checkAndSave_sample (worldAt noCredentials false 360)
          (submit "  " "" [])
        = Some (Rejected MissingCredentialsError
                  (LogStrSpec "zh" msgMissing), w'))
  /\ LogStrSpec "zh" msgMissing <> LogStrSpec "zh" msgNeverSet.
Proof.
  split; [reflexivity|].
  repeat split; try reflexivity; try discriminate.
  eexists. reflexivity.
Qed.

(** C2, amended, on the sample: six minutes after the start a first
    configuration is turned down, and so is a user name for the instance
    whose credentials were never set; four minutes after the start neither
    is. *)
Lemma bootstrap_window_witness :
  (exists w',
     checkAndSave_sample (worldAt zeroConfig true 360)
       (submit "admin" "correct horse battery" [])
     = Some (Rejected BootstrapWindowError (LogStrSpec "zh" msgBootstrap), w'))
  /\ (exists w',
        checkAndSave_sample (worldAt noCredentials false 360)
          (submit " admin " "" [])
        = Some (Rejected BootstrapWindowError (LogStrSpec "zh" msgNeverSet),
                w'))
  /\ (exists o w',
        checkAndSave_sample (worldAt zeroConfig true 240)
          (submit "admin" "correct horse battery" [])
        = Some (o, w')
        /\ forall msg, o <> Rejected BootstrapWindowError msg).
Proof.
  split; [|split].
  - destruct (bootstrap_window getHideIDSecretSpec SplitLinesSpec
                CheckPasswordSpec SaveConfigOk InitLogLangSpec LogStrSpec
                OrdinalSpec (worldAt zeroConfig true 360)
                (submit "admin" "correct horse battery" [])
                (mkData "admin" "correct horse battery" true "" "" "" []))
      as (o & w' & E & H & _); [reflexivity|simpl; lia|].
    exists w'. rewrite E, H; [reflexivity|simpl; lia|reflexivity].
  - destruct (bootstrap_window getHideIDSecretSpec SplitLinesSpec
                CheckPasswordSpec SaveConfigOk InitLogLangSpec LogStrSpec
                OrdinalSpec (worldAt noCredentials false 360)
                (submit " admin " "" [])
                (mkData " admin " "" true "" "" "" []))
      as (o & w' & E & _ & H & _); [reflexivity|simpl; lia|].
    exists w'. rewrite E, H;
      [reflexivity|simpl; lia|reflexivity|reflexivity|reflexivity|].
    left. discriminate.
  - destruct (bootstrap_window getHideIDSecretSpec SplitLinesSpec
                CheckPasswordSpec SaveConfigOk InitLogLangSpec LogStrSpec
                OrdinalSpec (worldAt zeroConfig true 240)
                (submit "admin" "correct horse battery" [])
                (mkData "admin" "correct horse battery" true "" "" "" []))
      as (o & w' & E & _ & _ & H); [reflexivity|simpl; lia|].
    exists o, w'. split; [exact E|]. apply H. simpl; lia.
Defined.

(** C3 on the sample: the request is turned down for its weak password,
    and the configuration still has the persisted user name, flag and
    webhook, not the submitted ones. *)
Lemma rejection_mutates_nothing_witness :
  exists w',
    checkAndSave_sample (worldAt persisted false 10) weakRequest
    = Some (Rejected WeakPasswordError "weak password", w')
    /\ cached w' = persisted
    /\ config.Username (cached w') = "admin"
    /\ config.NotAllowWanAccess (cached w') = true
    /\ config.WebhookURL (cached w') = ""
    /\ written w' = [].
Proof.
  eassert (checkAndSave_sample (worldAt persisted false 10) weakRequest
           = Some (Rejected WeakPasswordError "weak password", _)) as E
    by reflexivity.
  destruct (rejection_mutates_nothing getHideIDSecretSpec SplitLinesSpec
              CheckPasswordSpec SaveConfigOk InitLogLangSpec LogStrSpec
              OrdinalSpec _ _ _ _ _ E (or_introl eq_refl))
    as (_ & Hc & Hn & Hu & _ & _ & HU & _ & _ & Hw & _).
  eexists. split; [exact E|].
  split; [exact Hc|]. split; [exact HU|]. split; [exact Hn|].
  split; [exact Hu|exact Hw].
Defined.

(** C5 on the sample: the save of a user name without any password, on
    the instance without credentials, is turned down for missing
    credentials and nothing is written. *)
Lemma credentials_not_empty_witness :
  exists w',
    checkAndSave_sample (worldAt noCredentials false 10) (submit "admin" "" [])
    = Some (Rejected MissingCredentialsError (LogStrSpec "zh" msgMissing), w')
    /\ written w' = written (worldAt noCredentials false 10)
    /\ (forall err,
          Rejected MissingCredentialsError (LogStrSpec "zh" msgMissing)
          = Written err ->
          config.Username (cached w') <> ""
          /\ config.Password (cached w') <> "").
Proof.
  eassert (checkAndSave_sample (worldAt noCredentials false 10)
             (submit "admin" "" [])
           = Some (Rejected MissingCredentialsError (LogStrSpec "zh" msgMissing),
                   _)) as E by reflexivity.
  eexists. split; [exact E|].
  destruct (credentials_not_empty getHideIDSecretSpec SplitLinesSpec
              CheckPasswordSpec SaveConfigOk InitLogLangSpec LogStrSpec
              OrdinalSpec _ _ _ _ E) as [HW HM].
  split; [|exact HW].
  destruct (HM _ _ _ eq_refl (or_intror eq_refl)) as (_ & Hw & _).
  exact Hw.
Defined.

(** A successful save on the sample leaves credentials that are not
    empty. *)
Example successful_save_has_credentials :
  exists w',
    checkAndSave_sample (worldAt zeroConfig true 240)
      (submit "admin" "correct horse battery" [])
    = Some (Written None, w')
    /\ config.Username (cached w') = "admin"
    /\ config.Password (cached w') = "hash:correct horse battery"
    /\ written w' = [cached w']
    /\ ForceCompareGlobal w' = true
    /\ runOnceStarted w' = 1.
Proof. eexists. repeat split; reflexivity. Qed.

(** A write that fails is reported, and the pass is started all the
    same. *)
Example failed_write_still_triggers :
  exists w',
    checkAndSave getHideIDSecretSpec SplitLinesSpec CheckPasswordSpec
      SaveConfigFail InitLogLangSpec LogStrSpec OrdinalSpec
      (worldAt persisted false 10) (submit "admin" "" [])
    = Some (Written (Some "write failed"), w')
    /\ resultOf (Written (Some "write failed")) = "write failed"
    /\ written w' = [cached w']
    /\ ForceCompareGlobal w' = true
    /\ runOnceStarted w' = 1.
Proof. eexists. repeat split; reflexivity. Qed.

(** C8 as stated fails: the IPv4 domain text is a single line feed, so
    both domain lists end up empty, and no warning is logged. *)
Lemma blank_lines_no_warning_counterexample :
  dto "alidns" "AB****" "fresh" LF <> empty
  /\ SplitLinesSpec (Ipv4Domains (dto "alidns" "AB****" "fresh" LF)) = []
  /\ SplitLinesSpec (Ipv6Domains (dto "alidns" "AB****" "fresh" LF)) = []
  /\ exists w' e,
       checkAndSave_sample (worldAt persisted false 10)
         (submit "admin" "" [dto "alidns" "AB****" "fresh" LF])
       = Some (Written None, w')
       /\ config.DnsConf (cached w') = [e]
       /\ config.Ipv4.Domains (config.Ipv4 e) = []
       /\ config.Ipv6.Domains (config.Ipv6 e) = []
       /\ logged w' = [].
Proof.
  split; [discriminate|].
  split; [reflexivity|]. split; [reflexivity|].
  do 2 eexists. repeat split; reflexivity.
Qed.

(** C8, amended, on the sample: both domain texts are empty, the warning
    names the first entry and the entry is saved. *)
Lemma warns_on_empty_domain_text_witness :
  exists err w' e,
    checkAndSave_sample (worldAt persisted false 10)
      (submit "admin" "" [dto "alidns" "AB****" "fresh" ""])
    = Some (Written err, w')
    /\ In (mkLogLine "zh" msgNoDomain ["1"]) (logged w')
    /\ nth_error (config.DnsConf (cached w')) 0 = Some e
    /\ config.DNS.Name (config.DNS e) = "alidns".
Proof.
  apply (warns_on_empty_domain_text getHideIDSecretSpec SplitLinesSpec
           CheckPasswordSpec SaveConfigOk InitLogLangSpec LogStrSpec
           OrdinalSpec (worldAt persisted false 10)
           (submit "admin" "" [dto "alidns" "AB****" "fresh" ""])
           (mkData "admin" "" true "" "" "" [dto "alidns" "AB****" "fresh" ""])
           0 (dto "alidns" "AB****" "fresh" ""));
    [reflexivity|reflexivity|reflexivity|discriminate|reflexivity|reflexivity].
Defined.

(** C9 as stated fails: a submitted entry that holds a blank ID and
    nothing else is saved as an entry of empty fields; its masked form is
    the all-zero DTO, which the next save drops. *)
Lemma blank_entry_resubmission_counterexample :
  exists w1 w2,
    checkAndSave_sample (worldAt persisted false 10)
      (submit "admin" "" [blankDTO])
    = Some (Written None, w1)
    /\ checkAndSave_sample w1
         (submit "admin" ""
            (map (maskedDTO getHideIDSecretSpec) (config.DnsConf (cached w1))))
       = Some (Written None, w2)
    /\ List.length (config.DnsConf (cached w1)) = 1
    /\ config.DnsConf (cached w2) = []
    /\ config.DnsConf (cached w2) <> config.DnsConf (cached w1).
Proof.
  do 2 eexists. split; [reflexivity|].
  split; [reflexivity|].
  split; [reflexivity|]. split; [reflexivity|]. discriminate.
Qed.

(** C9, amended, on the sample: two entries, one with a masked ID and
    blank lines in its domain text, one with blanks around its ID, are
    saved; their masked form submitted again gives the same domain list. *)
Lemma resubmission_idempotent_witness :
  exists w' err2 w'',
    checkAndSave_sample (worldAt persisted false 10)
      (submit "admin" ""
         [dto "alidns" "AB****" "fresh-secret"
            ("a.example.com" ++ LF ++ LF ++ "b.example.com" ++ LF);
          dto "dnspod" " 1234 " " token " ""])
    = Some (Written None, w')
    /\ List.length (config.DnsConf (cached w')) = 2
    /\ checkAndSave_sample w'
         (submit "admin" ""
            (map (maskedDTO getHideIDSecretSpec) (config.DnsConf (cached w'))))
       = Some (Written err2, w'')
    /\ config.DnsConf (cached w'') = config.DnsConf (cached w').
Proof.
  pose (w' :=
          match
            checkAndSave_sample (worldAt persisted false 10)
              (submit "admin" ""
                 [dto "alidns" "AB****" "fresh-secret"
                    ("a.example.com" ++ LF ++ LF ++ "b.example.com" ++ LF);
                  dto "dnspod" " 1234 " " token " ""])
          with
          | Some (_, w1) => w1
          | None => worldAt persisted false 10
          end).
  assert (checkAndSave_sample (worldAt persisted false 10)
            (submit "admin" ""
               [dto "alidns" "AB****" "fresh-secret"
                  ("a.example.com" ++ LF ++ LF ++ "b.example.com" ++ LF);
                dto "dnspod" " 1234 " " token " ""])
          = Some (Written None, w')) as E by reflexivity.
  assert (Forall (fun c => maskedDTO getHideIDSecretSpec c <> empty)
            (config.DnsConf (cached w'))) as H1
    by (vm_compute; repeat constructor; discriminate).
  destruct (resubmission_idempotent CheckPasswordSpec
              SaveConfigOk InitLogLangSpec LogStrSpec OrdinalSpec 2
              (worldAt persisted false 10) _ w' w'
              (submit "admin" ""
                 (map (maskedDTO getHideIDSecretSpec)
                    (config.DnsConf (cached w'))))
              (mkData "admin" "" true "" "" ""
                 (map (maskedDTO getHideIDSecretSpec)
                    (config.DnsConf (cached w'))))
              E H1 eq_refl eq_refl eq_refl eq_refl)
    as (err2 & w'' & E2 & HD).
  exists w', err2, w''.
  split; [exact E|]. split; [reflexivity|]. split; [exact E2|exact HD].
Defined.

(** C4 on a sample: of three submitted DTOs the second is the zero value;
    the output holds the first and the third, in that order. *)
Example merge_filters_in_order_sample :
  exists log e1 e3,
    mergeDnsConf_sample persisted
      [dto "alidns" "AB****" "s3**********" "a.example.com"; empty;
       dto "dnspod" "1234" "token" "b.example.com"]
    = Some ([e1; e3], log)
    /\ config.DNS.Name (config.DNS e1) = "alidns"
    /\ config.DNS.Name (config.DNS e3) = "dnspod".
Proof. do 3 eexists. repeat split; reflexivity. Qed.

(** C10 on the sample: the second DTO has no persisted entry at its
    index; its ID stays as submitted, even though it is the masked form of
    the first entry's ID. *)
Lemma guarded_indexing_witness :
  exists dnsConfArray log e,
    mergeDnsConf_sample persisted
      [dto "alidns" "AB****" "s3**********" "a.example.com";
       dto "alidns" "AB****" "s3**********" "b.example.com"]
    = Some (dnsConfArray, log)
    /\ nth_error dnsConfArray 1 = Some e
    /\ config.DNS.ID (config.DNS e) = "AB****"
    /\ config.DNS.Secret (config.DNS e) = "s3**********".
Proof.
  destruct (guarded_indexing getHideIDSecretSpec SplitLinesSpec OrdinalSpec
              persisted
              [dto "alidns" "AB****" "s3**********" "a.example.com";
               dto "alidns" "AB****" "s3**********" "b.example.com"])
    as (arr & log & E & H).
  destruct (H 1 (dto "alidns" "AB****" "s3**********" "b.example.com"))
    as (e & He & _ & Hid & Hsec);
    [reflexivity|discriminate|simpl; lia|].
  exists arr, log, e. repeat split; assumption.
Defined.

(** C7 on the sample: a save that is turned down answers with the
    message and an empty domain list; a save that succeeds answers with
    ["ok"] and the encoded domain list. *)
Lemma response_shape_witness :
  (exists w',
     Save getHideIDSecretSpec SplitLinesSpec CheckPasswordSpec SaveConfigOk
       InitLogLangSpec LogStrSpec OrdinalSpec getDnsConfStrSpec
       (worldAt persisted false 10) weakRequest
     = Some ([("dnsConf", "[]"); ("result", "weak password")], w'))
  /\ (exists result dnsConf o w',
        Save getHideIDSecretSpec SplitLinesSpec CheckPasswordSpec SaveConfigOk
          InitLogLangSpec LogStrSpec OrdinalSpec getDnsConfStrSpec
          (worldAt persisted false 10)
          (submit "admin" "" [dto "alidns" "AB****" "fresh" "a.example.com"])
        = Some ([("dnsConf", dnsConf); ("result", result)], w')
        /\ checkAndSave_sample (worldAt persisted false 10)
             (submit "admin" "" [dto "alidns" "AB****" "fresh" "a.example.com"])
           = Some (o, w')
        /\ result = "ok"
        /\ dnsConf = "[alidns]").
Proof.
  split.
  - eexists. reflexivity.
  - destruct (response_shape getHideIDSecretSpec SplitLinesSpec
                CheckPasswordSpec SaveConfigOk InitLogLangSpec LogStrSpec
                OrdinalSpec getDnsConfStrSpec (worldAt persisted false 10)
                (submit "admin" ""
                   [dto "alidns" "AB****" "fresh" "a.example.com"]))
      as (result & dnsConf & o & w' & ES & EC & Hres & _ & Hok & _).
    exists result, dnsConf, o, w'.
    assert (result = "ok") as Hr.
    { rewrite Hres. vm_compute in EC. injection EC as <- _. reflexivity. }
    split; [exact ES|]. split; [exact EC|]. split; [exact Hr|].
    rewrite (Hok Hr). vm_compute in EC. injection EC as _ <-. reflexivity.
Defined.

(** ** The further properties on the sample states *)

(** X1 on the sample: a body that does not decode, sent with an English
    header to the Chinese instance. *)
Lemma parse_error_iff_witness :
  checkAndSave_sample (worldAt persisted false 10) (mkRequest None "en")
  = Some (Rejected RequestParseError (LogStrSpec "zh" msgParse),
          worldAt persisted false 10).
Proof.
  apply (parse_error_iff getHideIDSecretSpec SplitLinesSpec CheckPasswordSpec
           SaveConfigOk InitLogLangSpec LogStrSpec OrdinalSpec).
  repeat split; reflexivity.
Defined.

(** X2 on the sample: a first configuration that comes too late, with an
    English header. *)
Lemma bootstrap_rejection_leaves_configuration_witness :
  exists msg w',
    checkAndSave_sample (worldAt zeroConfig true 360)
      (mkRequest (Some (mkData "admin" "correct horse battery" true "" "" "" []))
         "en")
    = Some (Rejected BootstrapWindowError msg, w')
    /\ msg = LogStrSpec "en" msgBootstrap
    /\ cached w' = zeroConfig
    /\ written w' = [].
Proof.
  eassert (checkAndSave_sample (worldAt zeroConfig true 360)
             (mkRequest
                (Some (mkData "admin" "correct horse battery" true "" "" "" []))
                "en")
           = Some (Rejected BootstrapWindowError _, _)) as E by reflexivity.
  destruct (bootstrap_rejection_leaves_configuration getHideIDSecretSpec
              SplitLinesSpec CheckPasswordSpec SaveConfigOk InitLogLangSpec
              LogStrSpec OrdinalSpec _ _ _ _ E) as (_ & _ & Hc & _ & Hw & _).
  do 2 eexists. split; [exact E|].
  split; [reflexivity|]. split; [exact Hc|exact Hw].
Defined.

(** X3 on the sample: six minutes after the start the instance without
    credentials turns down a request that brings nothing. *)
Lemma no_credentials_after_window_locks_out_witness :
  exists why msg w',
    checkAndSave_sample (worldAt noCredentials false 360) (submit "" "" [])
    = Some (Rejected why msg, w')
    /\ written w' = written (worldAt noCredentials false 360)
    /\ runOnceStarted w' = runOnceStarted (worldAt noCredentials false 360).
Proof.
  apply (no_credentials_after_window_locks_out getHideIDSecretSpec
           SplitLinesSpec CheckPasswordSpec SaveConfigOk InitLogLangSpec
           LogStrSpec OrdinalSpec);
    [reflexivity|right; split; reflexivity].
Defined.

(** X4 on the sample: a day after the start the instance with credentials
    still takes a save. *)
Lemma credentials_never_locked_out_witness :
  exists o w',
    checkAndSave_sample (worldAt persisted false 86400) (submit "admin" "" [])
    = Some (o, w')
    /\ forall msg, o <> Rejected BootstrapWindowError msg.
Proof.
  eassert (checkAndSave_sample (worldAt persisted false 86400)
             (submit "admin" "" []) = Some (_, _)) as E by reflexivity.
  do 2 eexists. split; [exact E|].
  eapply (credentials_never_locked_out getHideIDSecretSpec SplitLinesSpec
           CheckPasswordSpec SaveConfigOk InitLogLangSpec LogStrSpec
           OrdinalSpec (worldAt persisted false 86400) (submit "admin" "" [])
           _ _); [reflexivity|left; discriminate|exact E].
Defined.

(** X5 on the sample: a save without a password keeps the hash. *)
Lemma empty_password_keeps_hash_witness :
  exists o w',
    checkAndSave_sample (worldAt persisted false 10) (submit "root" "" [])
    = Some (o, w')
    /\ config.Username (cached w') = "root"
    /\ config.Password (cached w') = "hash:correct horse battery".
Proof.
  eassert (checkAndSave_sample (worldAt persisted false 10)
             (submit "root" "" []) = Some (_, _)) as E by reflexivity.
  edestruct (empty_password_keeps_hash getHideIDSecretSpec SplitLinesSpec
               CheckPasswordSpec SaveConfigOk InitLogLangSpec LogStrSpec
               OrdinalSpec (worldAt persisted false 10) (submit "root" "" [])
               (mkData "root" "" true "" "" "" [])) as [HP _];
    [reflexivity|reflexivity|exact E|].
  do 2 eexists. split; [exact E|]. split; [reflexivity|exact HP].
Defined.

(** X6 on the sample: ten bytes are enough for the persisted
    configuration, which blocks WAN access, but the request opens WAN
    access, and for that they are too few. *)
Lemma password_judged_with_submitted_flag_witness :
  snd (CheckPasswordSpec persisted "tenletters") = None
  /\ exists o w',
       checkAndSave_sample (worldAt persisted false 10)
         (mkRequest (Some (mkData "admin" "tenletters" false "" "" "" [])) "zh")
       = Some (o, w')
       /\ o = Rejected WeakPasswordError "weak password"
       /\ config.Password (cached w') = "hash:correct horse battery".
Proof.
  split; [reflexivity|].
  eassert (checkAndSave_sample (worldAt persisted false 10)
             (mkRequest (Some (mkData "admin" "tenletters" false "" "" "" []))
                "zh") = Some (_, _)) as E by reflexivity.
  pose proof (fun HB HP =>
                password_judged_with_submitted_flag getHideIDSecretSpec
                  SplitLinesSpec CheckPasswordSpec SaveConfigOk InitLogLangSpec
                  LogStrSpec OrdinalSpec (worldAt persisted false 10)
                  (mkRequest
                     (Some (mkData "admin" "tenletters" false "" "" "" []))
                     "zh")
                  (mkData "admin" "tenletters" false "" "" "" []) _ _
                  HB HP E) as H.
  destruct H as (conf0 & HN & HU & HP & HD & HC);
    [reflexivity|discriminate|discriminate|].
  do 2 eexists. split; [exact E|]. split; reflexivity.
Defined.

(** X7 on the sample: the blanks around the user name are gone, the
    second DTO, the zero value, leaves no entry. *)
Lemma save_stores_submitted_witness :
  exists err w' e1 e3,
    checkAndSave_sample (worldAt persisted false 10)
      (submit " admin " ""
         [dto "alidns" "AB****" "fresh" "a.example.com"; empty;
          dto "dnspod" "1234" "token" "b.example.com"])
    = Some (Written err, w')
    /\ config.Username (cached w') = "admin"
    /\ config.DnsConf (cached w') = [e1; e3]
    /\ written w' = [cached w'].
Proof.
  eassert (checkAndSave_sample (worldAt persisted false 10)
             (submit " admin " ""
                [dto "alidns" "AB****" "fresh" "a.example.com"; empty;
                 dto "dnspod" "1234" "token" "b.example.com"])
           = Some (Written _, _)) as E by reflexivity.
  destruct (save_stores_submitted getHideIDSecretSpec SplitLinesSpec
              CheckPasswordSpec SaveConfigOk InitLogLangSpec LogStrSpec
              OrdinalSpec _ _ _ _ E)
    as (d & HB & _ & _ & HU & _ & _ & _ & _ & _ & HD).
  injection HB as <-.
  do 4 eexists. split; [exact E|]. split; [exact HU|].
  split; [exact HD|reflexivity].
Defined.

(** X8 on the sample: the masked ID is submitted, the real one is
    stored. *)
Lemma placeholder_never_replaces_secret_witness :
  exists dnsConfArray log e,
    mergeDnsConf_sample persisted
      [dto "alidns" "AB****" "s3**********" "a.example.com"]
    = Some (dnsConfArray, log)
    /\ nth_error dnsConfArray 0 = Some e
    /\ config.DNS.ID (config.DNS e) <> "AB****"
    /\ config.DNS.Secret (config.DNS e) <> "s3**********".
Proof.
  destruct (placeholder_never_replaces_secret getHideIDSecretSpec
              SplitLinesSpec OrdinalSpec persisted
              [dto "alidns" "AB****" "s3**********" "a.example.com"] 0
              (dto "alidns" "AB****" "s3**********" "a.example.com")
              (entry "alidns" "ABCDEF" "s3cr3t-value" ["a.example.com"]))
    as (arr & log & e & Hm & Hn & HI & HS);
    [reflexivity|discriminate|reflexivity|].
  exists arr, log, e. split; [exact Hm|]. split; [exact Hn|].
  split; [apply HI|apply HS]; discriminate.
Defined.

(** X9 on the sample: the mask of another entry's ID, submitted at the
    position of the first entry, is stored as it is. *)
Lemma mask_of_other_position_is_stored_witness :
  exists dnsConfArray log e,
    mergeDnsConf_sample persisted
      [dto "dnspod" "ZZ****" "token" "b.example.com"]
    = Some (dnsConfArray, log)
    /\ nth_error dnsConfArray 0 = Some e
    /\ config.DNS.ID (config.DNS e) = "ZZ****".
Proof.
  apply (mask_of_other_position_is_stored getHideIDSecretSpec SplitLinesSpec
           OrdinalSpec persisted
           [dto "dnspod" "ZZ****" "token" "b.example.com"] 0
           (dto "dnspod" "ZZ****" "token" "b.example.com")
           (entry "alidns" "ABCDEF" "s3cr3t-value" ["a.example.com"])
           (entry "dnspod" "ZZ9999" "token" ["b.example.com"]));
    [reflexivity|discriminate|reflexivity|reflexivity|discriminate].
Defined.

(** X10 on the sample: two zero values are submitted, the persisted entry
    is gone. *)
Lemma empty_submission_clears_witness :
  exists err w',
    checkAndSave_sample (worldAt persisted false 10)
      (submit "admin" "" [empty; empty])
    = Some (Written err, w')
    /\ config.DnsConf (cached w') = []
    /\ logged w' = logged (worldAt persisted false 10).
Proof.
  apply (empty_submission_clears getHideIDSecretSpec SplitLinesSpec
           CheckPasswordSpec SaveConfigOk InitLogLangSpec LogStrSpec
           OrdinalSpec (worldAt persisted false 10)
           (submit "admin" "" [empty; empty])
           (mkData "admin" "" true "" "" "" [empty; empty]));
    [reflexivity|reflexivity|repeat constructor].
Defined.

(** X12 on the sample. *)
Lemma handler_only_adds_witness :
  exists o w',
    checkAndSave_sample (worldAt persisted false 10)
      (submit "admin" "" [dto "alidns" "AB****" "fresh" ""])
    = Some (o, w')
    /\ (exists confs, written w' = [] ++ confs /\ List.length confs <= 1)
    /\ clock w' = clock (worldAt persisted false 10).
Proof.
  eassert (checkAndSave_sample (worldAt persisted false 10)
             (submit "admin" "" [dto "alidns" "AB****" "fresh" ""])
           = Some (_, _)) as E by reflexivity.
  destruct (handler_only_adds getHideIDSecretSpec SplitLinesSpec
              CheckPasswordSpec SaveConfigOk InitLogLangSpec LogStrSpec
              OrdinalSpec _ _ _ _ E) as (_ & HW & _ & _ & _ & HC).
  do 2 eexists. split; [exact E|]. split; [exact HW|exact HC].
Defined.

(** X13 on the sample: blanks around the URL and the ID are gone. *)
Lemma saved_entries_are_trimmed_witness :
  exists err w' e,
    checkAndSave_sample (worldAt persisted false 10)
      (submit "admin" ""
         [mkDnsConf4JS "dnspod" " 1234 " " token " "600" true "url"
            " https://ip.example " "" "" "b.example.com" false "" "" "" ""
            "" ""])
    = Some (Written err, w')
    /\ config.DnsConf (cached w') = [e]
    /\ config.Ipv4.URL (config.Ipv4 e) = "https://ip.example"
    /\ strings.TrimSpace (config.Ipv4.URL (config.Ipv4 e))
       = config.Ipv4.URL (config.Ipv4 e).
Proof.
  eassert (checkAndSave_sample (worldAt persisted false 10)
             (submit "admin" ""
                [mkDnsConf4JS "dnspod" " 1234 " " token " "600" true "url"
                   " https://ip.example " "" "" "b.example.com" false "" ""
                   "" "" "" ""])
           = Some (Written _, _)) as E by reflexivity.
  pose proof (saved_entries_are_trimmed getHideIDSecretSpec SplitLinesSpec
                CheckPasswordSpec SaveConfigOk InitLogLangSpec LogStrSpec
                OrdinalSpec _ _ _ _ E) as H.
  do 3 eexists. split; [exact E|]. split; [reflexivity|].
  split; [reflexivity|].
  inversion H as [|e l (HU & _) _]. exact HU.
Defined.

End web.

(** ** [strings.TrimSpace] on samples *)

Example TrimSpace_ascii :
  strings.TrimSpace (String (ascii_of_N 9) "  ab c " ++ web.LF) = "ab c".
Proof. reflexivity. Qed.

Example TrimSpace_blank : strings.TrimSpace "   " = "".
Proof. reflexivity. Qed.

(** U+3000, the ideographic space, is three bytes of UTF-8. *)
Example TrimSpace_ideographic :
  strings.TrimSpace (strings.ofBytes (strings.enc [227; 128; 128]%N) ++ "域名"
                     ++ strings.ofBytes (strings.enc [194; 160]%N))
  = "域名".
Proof. reflexivity. Qed.

(** ** Package [main]: properties *)

Section MainProperties.

Import main.

(** X14 (install only what is unknown): with a service handle at hand,
    [installService] calls [Install] exactly when [Status] answers
    [StatusUnknown] with an error, and [Start] exactly when it has called
    [Install] and that gave no error. *)
Theorem install_only_when_unknown (env : Env) :
  serviceNew env = None ->
  (In SvcInstall (fst (installService env))
   <-> fst (svcStatus env) = StatusUnknown /\ snd (svcStatus env) <> None)
  /\ (In SvcStart (fst (installService env))
      <-> In SvcInstall (fst (installService env)) /\ svcInstall env = None).
Proof.
  intros Hnew. unfold installService, getService. rewrite Hnew.
  destruct (svcStatus env) as [[| |] [e|]];
    destruct (svcInstall env) as [e'|];
    destruct (ChosenSystem env =? "unix-systemv");
    cbn; repeat split; intros;
    repeat match goal with
           | H : _ /\ _ |- _ => destruct H
           | H : _ \/ _ |- _ => destruct H
           | H : False |- _ => destruct H
           end;
    try discriminate; try congruence; auto.
Qed.

(** X15 (the silent case): with a service handle at hand,
    [installService] does nothing at all, not even a log line, exactly when
    [Status] answers [StatusUnknown] without an error. *)
Theorem install_silent_iff (env : Env) :
  serviceNew env = None ->
  fst (installService env) = []
  <-> svcStatus env = (StatusUnknown, None).
Proof.
  intros Hnew. unfold installService, getService. rewrite Hnew.
  destruct (svcStatus env) as [[| |] [e|]];
    destruct (svcInstall env) as [e'|];
    destruct (ChosenSystem env =? "unix-systemv");
    cbn; split; intros H; try discriminate; reflexivity.
Qed.

(** The actions of [autoOpenExplorer] are a print or the browser. *)
Lemma autoOpenExplorer_events (env : Env) :
  snd (autoOpenExplorer env) = Some tt
  /\ forall e, In e (fst (autoOpenExplorer env)) ->
               (exists args, e = FmtPrintln args /\ IsRunInDocker env = true)
               \/ (exists url, e = GoOpenExplorer url
                               /\ IsRunInDocker env = false).
Proof.
  unfold autoOpenExplorer.
  destruct (GetConfigCacheErr env); [|split; [reflexivity|intros e []]].
  destruct (IsRunInDocker env).
  - split; [reflexivity|]. intros e [<-|[]]. left. eauto.
  - destruct (ResolveTCPAddr env (listen env)) as [addr|err];
      [|split; [reflexivity|intros e []]].
    split; [reflexivity|]. intros e [<-|[]]. right. eauto.
Qed.

(** The actions of [run]: the routes, a log line, those of
    [autoOpenExplorer], the timer, the server and, if the server gives an
    error, the way out. *)
Lemma run_events (env : Env) (firstDelay : Z) :
  In (GoRunTimer firstDelay (wrap64 (every env * Second)))
     (fst (run env firstDelay))
  /\ In (ListenAndServe (listen env)) (fst (run env firstDelay))
  /\ forall e, In e (fst (run env firstDelay)) ->
       (exists pattern h, e = Handle pattern h)
       \/ (exists args, e = LogPrintln args)
       \/ In e (fst (autoOpenExplorer env))
       \/ e = GoRunTimer firstDelay (wrap64 (every env * Second))
       \/ e = ListenAndServe (listen env)
       \/ e = Sleep Minute
       \/ e = Exit 1.
Proof.
  unfold run.
  destruct (autoOpenExplorer_events env) as [Hs _].
  destruct (autoOpenExplorer env) as [t r]. cbn in Hs. subst r.
  destruct (serve env) as [err|]; cbn.
  - split; [do 10 right; apply in_or_app; right; simpl; auto|].
    split; [do 10 right; apply in_or_app; right; simpl; auto|].
    intros e H.
    repeat (destruct H as [<-|H]; [eauto 10|]).
    apply in_app_or in H. destruct H as [H|H]; [auto|].
    repeat (destruct H as [<-|H]; [eauto 10|]). destruct H.
  - split; [do 10 right; apply in_or_app; right; simpl; auto|].
    split; [do 10 right; apply in_or_app; right; simpl; auto|].
    intros e H.
    repeat (destruct H as [<-|H]; [eauto 10|]).
    apply in_app_or in H. destruct H as [H|H]; [auto|].
    repeat (destruct H as [<-|H]; [eauto 10|]). destruct H.
Qed.

Lemma fst_bind (A B : Type) (m : Proc A) (f : A -> Proc B) :
  fst (bind m f)
  = fst m ++ match snd m with
             | Some a => fst (f a)
             | None => []
             end.
Proof.
  destruct m as [t [a|]]; simpl.
  - destruct (f a). reflexivity.
  - rewrite app_nil_r. reflexivity.
Qed.

(** Installing and uninstalling only talk to the service manager and to
    the log. *)
Lemma service_management_events (env : Env) :
  forall e,
    In e (fst (installService env)) \/ In e (fst (uninstallService env)) ->
    match e with
    | LogFatalln _ | LogPrintln _ | LogPrintf _ _
    | SvcInstall | SvcStart | SvcStop | SvcUninstall => True
    | _ => False
    end.
Proof.
  intros e. unfold installService, uninstallService, getService.
  destruct (serviceNew env) as [err|];
    destruct (svcStatus env) as [[| |] [e1|]];
    destruct (svcInstall env) as [e2|];
    destruct (svcUninstall env) as [e3|];
    destruct (ChosenSystem env =? "unix-systemv");
    cbn; intros H;
    repeat match goal with
           | H : _ \/ _ |- _ => destruct H
           | H : False |- _ => destruct H
           end; subst; exact I.
Qed.

(** X16 (when the web server runs in this process): [main] comes to
    listen on the address of [-l] exactly when that address resolves, the
    service flag is neither [install] nor [uninstall], and the process is
    in Docker or has got a service handle.  The timer it starts then has
    the interval of [-f] in seconds, and a first delay of 10 s when the
    process runs as a service (not in Docker, with a status other than
    [StatusUnknown]) and of 100 ms otherwise. *)
Theorem server_started_iff (env : Env) :
  (In (ListenAndServe (listen env)) (fst (main env))
   <-> (exists addr, ResolveTCPAddr env (listen env) = inl addr)
       /\ serviceType env <> "install"
       /\ serviceType env <> "uninstall"
       /\ (IsRunInDocker env = true \/ serviceNew env = None))
  /\ forall d i,
       In (GoRunTimer d i) (fst (main env)) ->
       i = wrap64 (every env * Second)
       /\ d = if negb (IsRunInDocker env)
                 && negb (Status_eqb (fst (svcStatus env)) StatusUnknown)
              then (10 * Second)%Z
              else (100 * Millisecond)%Z.
Proof.
  assert (forall firstDelay e,
            In e (fst (run env firstDelay)) ->
            forall d i, e = GoRunTimer d i ->
            i = wrap64 (every env * Second) /\ d = firstDelay) as Htimer.
  { intros firstDelay e He d i ->.
    destruct (run_events env firstDelay) as (_ & _ & H).
    destruct (H _ He)
      as [(p & h & E)|[(a & E)|[Hin|[E|[E|[E|E]]]]]]; try discriminate.
    - destruct (autoOpenExplorer_events env) as [_ Ha].
      destruct (Ha _ Hin) as [(a & E & _)|(u & E & _)]; discriminate.
    - injection E as -> ->. auto. }
  pose proof (service_management_events env) as Hsvc.
  assert (forall firstDelay,
            In (ListenAndServe (listen env)) (fst (run env firstDelay)))
    as Hserve by (intros firstDelay; apply run_events).
  unfold main.
  destruct (ResolveTCPAddr env (listen env)) as [addr|err].
  2:{ cbn. split.
      - split; [intros [H|[]]; discriminate|].
        intros [[a H] _]. discriminate.
      - intros d i [H|[]]. discriminate. }
  match goal with
  | |- context [bind ?m _] => set (pre := m)
  end.
  assert (forall e, In e (fst pre) -> exists k v, e = Setenv k v) as Hpre.
  { intros e. unfold pre. destruct (negb _); cbn;
      [intros [<-|[]]; eauto|intros []]. }
  assert (snd pre = Some tt) as Hsnd
    by (unfold pre; destruct (negb _); reflexivity).
  rewrite fst_bind, Hsnd. clearbody pre.
  destruct (serviceType env =? "install") eqn:EI.
  { apply String.eqb_eq in EI. split.
    - split.
      + intros H. apply in_app_or in H. destruct H as [H|H].
        * destruct (Hpre _ H) as (k & v & E). discriminate.
        * exact (False_ind _ (Hsvc _ (or_introl H))).
      + intros (_ & H & _). contradiction.
    - intros d i H. apply in_app_or in H. destruct H as [H|H].
      + destruct (Hpre _ H) as (k & v & E). discriminate.
      + exact (False_ind _ (Hsvc _ (or_introl H))). }
  destruct (serviceType env =? "uninstall") eqn:EU.
  { apply String.eqb_eq in EU. split.
    - split.
      + intros H. apply in_app_or in H. destruct H as [H|H].
        * destruct (Hpre _ H) as (k & v & E). discriminate.
        * exact (False_ind _ (Hsvc _ (or_intror H))).
      + intros (_ & _ & H & _). contradiction.
    - intros d i H. apply in_app_or in H. destruct H as [H|H].
      + destruct (Hpre _ H) as (k & v & E). discriminate.
      + exact (False_ind _ (Hsvc _ (or_intror H))). }
  apply String.eqb_neq in EI, EU.
  destruct (IsRunInDocker env) eqn:ED.
  { split.
    - split.
      + intros _. repeat split; eauto.
      + intros _. apply in_or_app. right. apply Hserve.
    - intros d i H. apply in_app_or in H. destruct H as [H|H].
      + destruct (Hpre _ H) as (k & v & E). discriminate.
      + destruct (Htimer _ _ H d i eq_refl) as [-> ->]. auto. }
  unfold getService.
  destruct (serviceNew env) as [err|] eqn:EN.
  { cbn. split.
    - split.
      + intros H. apply in_app_or in H. destruct H as [H|H].
        * destruct (Hpre _ H) as (k & v & E). discriminate.
        * destruct H as [H|[]]. discriminate.
      + intros (_ & _ & _ & [H|H]); discriminate.
    - intros d i H. apply in_app_or in H. destruct H as [H|H].
      + destruct (Hpre _ H) as (k & v & E). discriminate.
      + destruct H as [H|[]]. discriminate. }
  destruct (svcStatus env) as [status e0]. cbn [fst].
  rewrite fst_bind. cbn [ret fst snd app].
  assert (forall e, In e (fst (serviceRun env)) ->
                    e = SvcRun \/ e = GoProgramRun
                    \/ In e (fst (run env (10 * Second)))) as Hrun.
  { intros e. unfold serviceRun, program_Start, program_run.
    repeat (rewrite fst_bind; cbn [emit ret fst snd app]).
    intros [<-|[<-|H]]; auto. }
  assert (In (ListenAndServe (listen env)) (fst (serviceRun env))) as Hrun2.
  { unfold serviceRun, program_Start, program_run.
    repeat (rewrite fst_bind; cbn [emit ret fst snd app]).
    right. right. apply Hserve. }
  destruct status; cbn [Status_eqb negb andb].
  - rewrite fst_bind. cbn [emit fst snd app]. split.
    + split.
      * intros _. repeat split; eauto.
      * intros _. apply in_or_app. right. right. apply Hserve.
    + intros d i H. apply in_app_or in H. destruct H as [H|H].
      * destruct (Hpre _ H) as (k & v & E). discriminate.
      * destruct H as [H|H]; [discriminate|].
        destruct (Htimer _ _ H d i eq_refl) as [-> ->]. auto.
  - split.
    + split.
      * intros _. repeat split; eauto.
      * intros _. apply in_or_app. right. exact Hrun2.
    + intros d i H. apply in_app_or in H. destruct H as [H|H].
      * destruct (Hpre _ H) as (k & v & E). discriminate.
      * destruct (Hrun _ H) as [E|[E|H']]; try discriminate.
        destruct (Htimer _ _ H' d i eq_refl) as [-> ->]. auto.
  - split.
    + split.
      * intros _. repeat split; eauto.
      * intros _. apply in_or_app. right. exact Hrun2.
    + intros d i H. apply in_app_or in H. destruct H as [H|H].
      * destruct (Hpre _ H) as (k & v & E). discriminate.
      * destruct (Hrun _ H) as [E|[E|H']]; try discriminate.
        destruct (Htimer _ _ H' d i eq_refl) as [-> ->]. auto.
Qed.

(** X17 (in Docker the service manager is left alone): in Docker, when
    the service flag is neither [install] nor [uninstall], [main] never
    asks for a service handle, never installs, starts, stops, uninstalls or
    runs a service, and never opens a browser. *)
Theorem docker_leaves_service_alone (env : Env) :
  IsRunInDocker env = true ->
  serviceType env <> "install" ->
  serviceType env <> "uninstall" ->
  forall e, In e (fst (main env)) ->
    match e with
    | SvcInstall | SvcStart | SvcStop | SvcUninstall | SvcRun
    | LogFatalln _ | GoOpenExplorer _ | GoProgramRun => False
    | _ => True
    end.
Proof.
  intros HD HI HU e. unfold main.
  destruct (ResolveTCPAddr env (listen env)) as [addr|err];
    [|intros [<-|[]]; exact I].
  apply String.eqb_neq in HI, HU.
  rewrite fst_bind, HI, HU, HD. intros H.
  apply in_app_or in H. destruct H as [H|H].
  - destruct (negb _); cbn in H; [destruct H as [<-|[]]; exact I|destruct H].
  - destruct (snd _); [|destruct H].
    destruct (run_events env (100 * Millisecond)) as (_ & _ & Hr).
    destruct (Hr _ H)
      as [(p & h & ->)|[(a & ->)|[Hin|[->|[->|[->| ->]]]]]]; try exact I.
    destruct (autoOpenExplorer_events env) as [_ Ha].
    destruct (Ha _ Hin) as [(args & -> & _)|(target & _ & Hd)]; [exact I|].
    congruence.
Qed.

(** X18 (when the browser is opened): [autoOpenExplorer] opens a browser
    exactly when no configuration can be read, the process is not in
    Docker and the listen address resolves; the URL is then the resolved
    address when its IP is a global unicast one, and the loopback address
    with the resolved port otherwise. *)
Theorem browser_opened_iff (env : Env) (url : string) :
  In (GoOpenExplorer url) (fst (autoOpenExplorer env))
  <-> GetConfigCacheErr env = true
      /\ IsRunInDocker env = false
      /\ exists addr,
           ResolveTCPAddr env (listen env) = inl addr
           /\ url = if IsGlobalUnicast addr
                    then ("http://" ++ addrString addr)%string
                    else ("http://127.0.0.1:" ++ Itoa (Port addr))%string.
Proof.
  unfold autoOpenExplorer.
  destruct (GetConfigCacheErr env);
    [|split; [intros []|intros (H & _); discriminate]].
  destruct (IsRunInDocker env).
  - split; [intros [H|[]]; discriminate|intros (_ & H & _); discriminate].
  - destruct (ResolveTCPAddr env (listen env)) as [addr|err].
    + split.
      * intros [H|[]]. injection H as <-. repeat split. eauto.
      * intros (_ & _ & a & [= <-] & ->). left. reflexivity.
    + split; [intros []|intros (_ & _ & a & H & _); discriminate].
Qed.

(** X14 on the sample: the service is unknown to the manager, so it is
    installed and started. *)
Lemma install_only_when_unknown_witness :
  In SvcInstall
     (fst (installService
             (sampleEnv "install" false (StatusUnknown, Some "not installed"))))
  /\ In SvcStart
       (fst (installService
               (sampleEnv "install" false
                  (StatusUnknown, Some "not installed")))).
Proof.
  destruct (install_only_when_unknown
              (sampleEnv "install" false (StatusUnknown, Some "not installed"))
              eq_refl) as [HI HS].
  assert (In SvcInstall
            (fst (installService
                    (sampleEnv "install" false
                       (StatusUnknown, Some "not installed"))))) as H
    by (apply HI; split; [reflexivity|discriminate]).
  split; [exact H|]. apply HS. split; [exact H|reflexivity].
Defined.

(** X15 on the sample: the manager answers [StatusUnknown] and no error;
    nothing happens. *)
Lemma install_silent_iff_witness :
  fst (installService (sampleEnv "install" false (StatusUnknown, None))) = [].
Proof.
  apply (install_silent_iff (sampleEnv "install" false (StatusUnknown, None))
           eq_refl).
  reflexivity.
Defined.

(** X16 on the sample: started by hand outside Docker, with no service
    installed, the process serves on [:9876] with a first delay of 100 ms;
    run as a service it serves with a first delay of 10 s. *)
Lemma server_started_iff_witness :
  In (ListenAndServe ":9876")
     (fst (main (sampleEnv "" false (StatusUnknown, Some "not installed"))))
  /\ In (ListenAndServe ":9876")
       (fst (main (sampleEnv "" false (StatusRunning, None))))
  /\ forall d i,
       In (GoRunTimer d i)
          (fst (main (sampleEnv "" false (StatusRunning, None)))) ->
       d = 10000000000%Z.
Proof.
  split; [|split].
  - apply (server_started_iff
             (sampleEnv "" false (StatusUnknown, Some "not installed"))).
    split; [eexists; reflexivity|].
    split; [discriminate|]. split; [discriminate|].
    right. reflexivity.
  - apply (server_started_iff (sampleEnv "" false (StatusRunning, None))).
    split; [eexists; reflexivity|].
    split; [discriminate|]. split; [discriminate|].
    right. reflexivity.
  - intros d i H.
    destruct (proj2 (server_started_iff
                       (sampleEnv "" false (StatusRunning, None))) d i H)
      as [_ Hd].
    exact Hd.
Defined.

(** X17 on the sample: in Docker the process serves and prints where to
    find it. *)
Lemma docker_leaves_service_alone_witness :
  In (ListenAndServe ":9876")
     (fst (main (sampleEnv "" true (StatusRunning, None))))
  /\ ~ In SvcRun (fst (main (sampleEnv "" true (StatusRunning, None)))).
Proof.
  split; [vm_compute; tauto|].
  intros H.
  exact (docker_leaves_service_alone
           (sampleEnv "" true (StatusRunning, None)) eq_refl
           (fun E => ltac:(discriminate E)) (fun E => ltac:(discriminate E))
           SvcRun H).
Defined.

(** X18 on the sample: the listen address has no global unicast IP, the
    browser goes to the loopback address. *)
Lemma browser_opened_iff_witness :
  In (GoOpenExplorer "http://127.0.0.1:9876")
     (fst (autoOpenExplorer
             (sampleEnv "" false (StatusUnknown, Some "not installed")))).
Proof.
  apply (browser_opened_iff
           (sampleEnv "" false (StatusUnknown, Some "not installed"))).
  split; [reflexivity|]. split; [reflexivity|].
  eexists. split; reflexivity.
Defined.

End MainProperties.
